(** * giss-pdf-cleaner: the cleaning pipeline of [pdftoexcel.py]

    A shallow embedding of [clean_pdf] (src/pdftoexcel.py, lines 17-90):
    the concatenation of the extracted tables, the row filters, the
    continuation-row loop, the numeric coercion and the two derived sheets.

    Modelling conventions.
    - The library calls are read as pandas 2 defines them; in particular
      [astype(str)] turns the missing value into the text "nan".
    - A Python [str] is a [string]; characters are code points below 256.
    - A raw cell is text or the missing value NaN that [pd.concat] puts in
      columns a narrower table does not have.
    - A float64 is the exact rational its decimal text denotes, or one of
      the two infinities; rounding and overflow of binary floating point
      are outside the model.  NaN is the missing value.
    - A DataFrame is its column names and its rows, each row carrying its
      index label.
    - [pd.to_datetime] is a parameter of the development: no statement
      below depends on how dates are read. *)

From Stdlib Require Import String Ascii List Bool Arith ZArith QArith Lia.
From Stdlib Require Import Sorting.Sorted Sorting.Permutation.
Import ListNotations.

Close Scope Q_scope.
Close Scope Z_scope.
Open Scope string_scope.
Open Scope list_scope.
Open Scope nat_scope.

(** ** Text *)

Module Text.

(** [str.isspace] on code points below 256. *)
Definition is_space (c : ascii) : bool :=
  let n := nat_of_ascii c in
  ((9 <=? n) && (n <=? 13)) || ((28 <=? n) && (n <=? 32))
  || (n =? 133) || (n =? 160).

Fixpoint lstrip (s : string) : string :=
  match s with
  | EmptyString => EmptyString
  | String c s' => if is_space c then lstrip s' else s
  end.

Fixpoint rstrip (s : string) : string :=
  match s with
  | EmptyString => EmptyString
  | String c s' =>
      match rstrip s' with
      | EmptyString => if is_space c then EmptyString else String c EmptyString
      | r => String c r
      end
  end.

(** [s.strip()] *)
Definition strip (s : string) : string := rstrip (lstrip s).

(** Case folding as [re.IGNORECASE] does it for the letters of the two
    patterns of the source, all ASCII. *)
Definition lower (c : ascii) : ascii :=
  let n := nat_of_ascii c in
  if (65 <=? n) && (n <=? 90) then ascii_of_nat (n + 32) else c.

Fixpoint starts_with_ci (pat s : string) : bool :=
  match pat, s with
  | EmptyString, _ => true
  | String _ _, EmptyString => false
  | String p pat', String c s' =>
      Ascii.eqb (lower p) (lower c) && starts_with_ci pat' s'
  end.

(** [Series.str.contains(pat, case=False)] on one element, for a pattern
    without regular-expression operators. *)
Fixpoint contains_ci (pat s : string) : bool :=
  starts_with_ci pat s
  || match s with
     | EmptyString => false
     | String _ s' => contains_ci pat s'
     end.

(** [s.replace(",", "")] *)
Fixpoint remove_commas (s : string) : string :=
  match s with
  | EmptyString => EmptyString
  | String c s' =>
      if Ascii.eqb c "," then remove_commas s' else String c (remove_commas s')
  end.

Fixpoint all_chars (f : ascii -> bool) (s : string) : bool :=
  match s with
  | EmptyString => true
  | String c s' => f c && all_chars f s'
  end.

Definition is_empty (s : string) : bool :=
  match s with EmptyString => true | _ => false end.

End Text.

(** ** Numbers *)

Module Number.

(** The non-missing float64 values. *)
Inductive num : Type :=
| Fin (q : Q)
| PInf
| NInf.

Definition of_Z (z : Z) : num := Fin (Qred (z # 1)).
Definition of_nat (n : nat) : num := of_Z (Z.of_nat n).

(** Addition of floats; [None] is NaN, which absorbs. *)
Definition add (a b : option num) : option num :=
  match a, b with
  | Some (Fin x), Some (Fin y) => Some (Fin (Qred (Qplus x y)))
  | Some (Fin _), Some PInf | Some PInf, Some (Fin _) | Some PInf, Some PInf =>
      Some PInf
  | Some (Fin _), Some NInf | Some NInf, Some (Fin _) | Some NInf, Some NInf =>
      Some NInf
  | _, _ => None
  end.

(** [a <= b] on floats. *)
Definition leb (a b : num) : bool :=
  match a, b with
  | NInf, _ => true
  | _, PInf => true
  | Fin x, Fin y => Qle_bool x y
  | _, _ => false
  end.

(** *** Reading a float from text ([pd.to_numeric] on one string) *)

Definition digit (c : ascii) : option Z :=
  let n := nat_of_ascii c in
  if (48 <=? n) && (n <=? 57) then Some (Z.of_nat (n - 48)) else None.

(** Consume a run of digits: accumulated value, how many, and the rest. *)
Fixpoint digits (acc : Z) (cnt : nat) (s : string) : Z * nat * string :=
  match s with
  | EmptyString => (acc, cnt, s)
  | String c s' =>
      match digit c with
      | Some d => digits (acc * 10 + d)%Z (S cnt) s'
      | None => (acc, cnt, s)
      end
  end.

Definition sign (s : string) : bool * string :=
  match s with
  | String "-" s' => (true, s')
  | String "+" s' => (false, s')
  | _ => (false, s)
  end.

(** The exponent part: [e] or [E], an optional sign and at least one
    digit; without a digit the letter is not consumed. *)
Definition exponent (s : string) : Z * string :=
  match s with
  | String c s' =>
      if Ascii.eqb c "e" || Ascii.eqb c "E" then
        let '(neg, s1) := sign s' in
        let '(n, cnt, s2) := digits 0 0 s1 in
        match cnt with
        | O => (0%Z, s)
        | _ => ((if neg then - n else n)%Z, s2)
        end
      else (0%Z, s)
  | EmptyString => (0%Z, s)
  end.

Definition scale (m e : Z) : Q :=
  if (0 <=? e)%Z then Qred ((m * 10 ^ e) # 1)
  else Qred (Qmake m (Z.to_pos (10 ^ (- e)))).

(** [xstrtod]: sign, digits, an optional fraction, an optional exponent;
    at least one digit in the mantissa, and nothing may follow. *)
Definition strtod (s : string) : option Q :=
  let '(neg, s0) := sign s in
  let '(ip, n1, s1) := digits 0 0 s0 in
  let '(m, n2, s2) :=
    match s1 with
    | String "." s1' => digits ip 0 s1'
    | _ => (ip, 0, s1)
    end in
  match n1 + n2 with
  | O => None
  | _ =>
      let '(e, s3) := exponent s2 in
      match s3 with
      | EmptyString =>
          Some (scale (if neg then - m else m)%Z (e - Z.of_nat n2)%Z)
      | _ => None
      end
  end.

Fixpoint lower_string (s : string) : string :=
  match s with
  | EmptyString => EmptyString
  | String c s' => String (Text.lower c) (lower_string s')
  end.

(** [floatify]: the number, else one of the spellings of infinity, else
    a parse error. *)
Definition floatify (s : string) : option num :=
  match strtod s with
  | Some q => Some (Fin q)
  | None =>
      let l := lower_string s in
      if String.eqb l "inf" || String.eqb l "+inf"
         || String.eqb l "infinity" || String.eqb l "+infinity" then Some PInf
      else if String.eqb l "-inf" || String.eqb l "-infinity" then Some NInf
      else None
  end.

End Number.

(** ** Cells and frames *)

(** A cell of an object column before coercion: text, or NaN. *)
Inductive cell : Type :=
| NaN
| Str (s : string).

(** [str(c)], which is also what [astype(str)] gives for [c]. *)
Definition astype_str (c : cell) : string :=
  match c with
  | NaN => "nan"
  | Str s => s
  end.

Definition isna (c : cell) : bool :=
  match c with NaN => true | Str _ => false end.

Record date : Type := mkDate { year : Z; month : Z; day : Z }.

(** A cell after coercion. *)
Inductive value : Type :=
| VNaN
| VStr (s : string)
| VNum (x : Number.num)
| VDate (d : date).

Definition of_cell (c : cell) : value :=
  match c with
  | NaN => VNaN
  | Str s => VStr s
  end.

Definition notna (v : value) : bool :=
  match v with VNaN => false | _ => true end.

(** The float held by a cell of a numeric column. *)
Definition as_float (v : value) : option Number.num :=
  match v with
  | VNum x => Some x
  | _ => None
  end.

Definition of_float (o : option Number.num) : value :=
  match o with
  | Some x => VNum x
  | None => VNaN
  end.

(** One table of [camelot]: [t.df], every cell a string. *)
Record RawTable : Type := mkRaw { ncols : nat; cells : list (list string) }.

(** A frame whose columns are still numbered [0 .. width-1]. *)
Record Table : Type := mkTable { width : nat; body : list (nat * list cell) }.

(** A frame with named columns; a row is its index label and its cells. *)
Record DataFrame (A : Type) : Type :=
  mkDF { columns : list string; rows : list (nat * list A) }.

Arguments mkDF {A} columns rows.
Arguments columns {A} d.
Arguments rows {A} d.

(** The errors [clean_pdf] can raise.  The first two are [ValueError] in
    pandas: [pd.concat] of no table, and the assignment to [df.columns]
    when the frame does not have ten columns.  The third is raised by
    [df.iloc[:, 0]] on a frame without columns. *)
Inductive error : Type :=
| NoObjectsToConcatenate
| LengthMismatch (have want : nat)
| IndexError.

Definition len {A} (df : DataFrame A) : nat := length (rows df).

(** [df.iloc[i]], [df.index[i]], [df.iat[i, j]] *)
Definition iloc {A} (df : DataFrame A) (i : nat) : list A :=
  match nth_error (rows df) i with
  | Some (_, r) => r
  | None => []
  end.

Definition index_at {A} (df : DataFrame A) (i : nat) : nat :=
  match nth_error (rows df) i with
  | Some (l, _) => l
  | None => 0
  end.

Fixpoint set_nth {A} (n : nat) (x : A) (l : list A) : list A :=
  match l, n with
  | [], _ => []
  | _ :: l', O => x :: l'
  | y :: l', S n' => y :: set_nth n' x l'
  end.

Fixpoint update_nth {A} (n : nat) (f : A -> A) (l : list A) : list A :=
  match l, n with
  | [], _ => []
  | y :: l', O => f y :: l'
  | y :: l', S n' => y :: update_nth n' f l'
  end.

(** [df.iat[i, j] = v].  The source only writes at [i-1 < len(df)] and at
    column 5 of 10, so the position always exists. *)
Definition iat_set {A} (df : DataFrame A) (i j : nat) (v : A) : DataFrame A :=
  mkDF (columns df)
       (update_nth i (fun lr => (fst lr, set_nth j v (snd lr))) (rows df)).

(** [df[mask]] for a mask computed row by row. *)
Definition select {A} (keep : list A -> bool) (df : DataFrame A) : DataFrame A :=
  mkDF (columns df) (filter (fun lr => keep (snd lr)) (rows df)).

(** [df.drop(labels)] *)
Definition drop {A} (labels : list nat) (df : DataFrame A) : DataFrame A :=
  mkDF (columns df)
       (filter (fun lr => negb (existsb (Nat.eqb (fst lr)) labels)) (rows df)).

(** Position of a column name, [length cols] when absent. *)
Fixpoint get_loc (name : string) (cols : list string) : nat :=
  match cols with
  | [] => 0
  | c :: cols' => if String.eqb c name then 0 else S (get_loc name cols')
  end.

(** ** Lines 17-35: concatenate, keep ten columns, name them *)

Definition reindex_raw (w : nat) (r : list string) : list cell :=
  map (fun j => match nth_error r j with
                | Some s => Str s
                | None => NaN
                end) (seq 0 w).

(** Number the rows from 0. *)
Definition renumber {A} (b : list (list A)) : list (nat * list A) :=
  combine (seq 0 (length b)) b.

(** [pd.concat(df_list, ignore_index=True)]: the columns are the union of
    the numbered columns of the tables, rows of narrower tables are
    filled with NaN, and the index is renumbered from 0. *)
Definition pd_concat (df_list : list RawTable) : error + Table :=
  match df_list with
  | [] => inl NoObjectsToConcatenate
  | _ =>
      let w := fold_right Nat.max 0 (map ncols df_list) in
      let b := flat_map (fun t => map (reindex_raw w) (cells t)) df_list in
      inr (mkTable w (renumber b))
  end.

(** [df.iloc[:, :10]] *)
Definition first_columns (n : nat) (t : Table) : Table :=
  mkTable (Nat.min n (width t))
          (map (fun lr => (fst lr, firstn n (snd lr))) (body t)).

Definition column_names : list string :=
  ["No."; "Value Date"; "Tran Type"; "Tran Ref"; "Participant";
   "Additional Information"; "DR"; "Amount_DR"; "CR"; "Amount_CR"].

(** [df.columns = names] *)
Definition set_columns (names : list string) (t : Table)
  : error + DataFrame cell :=
  if width t =? length names then inr (mkDF names (body t))
  else inl (LengthMismatch (width t) (length names)).

(** ** Lines 37-45: the three row filters *)

(** Line 38. *)
Definition is_artifact (row : list cell) : bool :=
  existsb (fun c => Text.contains_ci "table from page" (astype_str c)) row.

(** [df[~df.apply(f, axis=1)]].  On a frame that has rows, [apply] gives
    one boolean per row and the rows where [f] holds are left out.  On a
    frame without rows [apply] does not run row by row: it returns an
    empty Series of floats, [~] leaves an empty Series as it is, and
    [df[...]] reads a Series that is not boolean as a list of column
    labels, here an empty one: the result has no columns. *)
Definition drop_where (f : list cell -> bool) (df : DataFrame cell)
  : DataFrame cell :=
  match rows df with
  | [] => mkDF [] []
  | _ => select (fun row => negb (f row)) df
  end.

Definition drop_artifacts (df : DataFrame cell) : DataFrame cell :=
  drop_where is_artifact df.

(** Line 41: [dropna(how="all")]. *)
Definition all_na (row : list cell) : bool := forallb isna row.

(** Line 42. *)
Definition is_blank (row : list cell) : bool :=
  forallb (fun c => Text.is_empty (Text.strip (astype_str c))) row.

Definition dropna_all (df : DataFrame cell) : DataFrame cell :=
  select (fun row => negb (all_na row)) df.

Definition drop_empty (df : DataFrame cell) : DataFrame cell :=
  drop_where is_blank (dropna_all df).

(** Line 45. *)
Definition is_header (row : list cell) : bool :=
  Text.contains_ci "Additional" (astype_str (nth 0 row NaN)).

(** [df.iloc[:, 0]] needs a first column; the mask is then a boolean
    Series whatever the number of rows. *)
Definition drop_headers (df : DataFrame cell) : error + DataFrame cell :=
  match columns df with
  | [] => inl IndexError
  | _ => inr (select (fun row => negb (is_header row)) df)
  end.

(** The three filters of lines 38-45 on a frame that keeps rows up to
    line 42. *)
Definition filtered (df : DataFrame cell) : DataFrame cell :=
  select (fun row => negb (is_header row))
    (select (fun row => negb (is_blank row))
       (select (fun row => negb (all_na row))
          (select (fun row => negb (is_artifact row)) df))).

(** ** Lines 47-55: continuation rows *)

Definition non_empty (row : list cell) : list bool :=
  map (fun c => negb (Text.is_empty (Text.strip (astype_str c)))) row.

Definition count_true (l : list bool) : nat :=
  length (filter (fun b => b) l).

(** The test of line 52. *)
Definition is_continuation (row : list cell) : bool :=
  (count_true (non_empty row) =? 1) && nth 5 (non_empty row) false.

(** One turn of the loop of lines 49-54; the state is the frame, written
    in place, and [rows_to_drop]. *)
Definition merge_step (st : DataFrame cell * list nat) (i : nat)
  : DataFrame cell * list nat :=
  let '(df, rows_to_drop) := st in
  let row := iloc df i in
  if is_continuation row then
    (iat_set df (i - 1) 5
       (Str (astype_str (nth 5 (iloc df (i - 1)) NaN) ++ " "
             ++ astype_str (nth 5 row NaN))),
     rows_to_drop ++ [index_at df i])
  else st.

Definition merge_loop (df : DataFrame cell) : DataFrame cell * list nat :=
  fold_left merge_step (seq 1 (len df - 1)) (df, []).

Definition fix_continuations (df : DataFrame cell) : DataFrame cell :=
  let '(df', rows_to_drop) := merge_loop df in
  drop rows_to_drop df'.

(** Lines 17-35. *)
Definition raw_table (df_list : list RawTable) : error + DataFrame cell :=
  match pd_concat df_list with
  | inl e => inl e
  | inr t => set_columns column_names (first_columns 10 t)
  end.

(** Lines 37-55. *)
Definition clean_rows (df : DataFrame cell) : error + DataFrame cell :=
  match drop_headers (drop_empty (drop_artifacts df)) with
  | inl e => inl e
  | inr df' => inr (fix_continuations df')
  end.

(** ** Lines 57-63: coercion of the numeric columns and of the date *)

Definition find_loc (name : string) (cols : list string) : option nat :=
  if existsb (String.eqb name) cols then Some (get_loc name cols) else None.

(** [df[name]] as the list of its cells, top to bottom. *)
Definition column {A} (d : A) (name : string) (df : DataFrame A) : list A :=
  map (fun lr => nth (get_loc name (columns df)) (snd lr) d) (rows df).

(** [df.iloc[:, j]] *)
Definition icolumn {A} (d : A) (j : nat) (df : DataFrame A) : list A :=
  map (fun lr => nth j (snd lr) d) (rows df).

Fixpoint assign_rows {A} (j : nat) (d : A) (rs : list (nat * list A))
  (col : list A) : list (nat * list A) :=
  match rs with
  | [] => []
  | lr :: rs' =>
      (fst lr, set_nth j (hd d col) (snd lr)) :: assign_rows j d rs' (tl col)
  end.

(** [df[name] = col] for a column the frame already has. *)
Definition assign (name : string) (col : list value) (df : DataFrame value)
  : DataFrame value :=
  mkDF (columns df) (assign_rows (get_loc name (columns df)) VNaN (rows df) col).

(** [pd.to_numeric(s, errors="coerce")] on one string: the empty string
    and every text that does not read as a float give NaN. *)
Definition to_numeric (s : string) : option Number.num :=
  if Text.is_empty s then None else Number.floatify s.

(** The right-hand side of line 60 on one cell. *)
Definition coerce_cell (c : cell) : value :=
  of_float (to_numeric (Text.strip (Text.remove_commas (astype_str c)))).

Definition num_cols : list string :=
  ["DR"; "Amount_DR"; "CR"; "Amount_CR"; "No."; "Tran Type"].

Definition date_value (o : option date) : value :=
  match o with
  | Some d => VDate d
  | None => VNaN
  end.

(** The frame of line 55 seen as a frame of values, before any column is
    converted. *)
Definition as_objects (df : DataFrame cell) : DataFrame value :=
  mkDF (columns df) (map (fun lr => (fst lr, map of_cell (snd lr))) (rows df)).

(** ** The frames [clean_pdf] holds: a store of objects

    A variable of the source holds a reference to a frame.  An operation
    that returns a new frame allocates; an item or column assignment
    writes the frame the reference points to. *)

Module Store.

Definition ref : Type := nat.
Definition store : Type := list (DataFrame value).
Definition M (A : Type) : Type := store -> A * store.

Definition ret {A} (a : A) : M A := fun s => (a, s).

Definition bind {A B} (m : M A) (k : A -> M B) : M B :=
  fun s => let '(a, s') := m s in k a s'.

Definition empty_frame : DataFrame value := mkDF [] [].

Definition alloc (df : DataFrame value) : M ref :=
  fun s => (length s, s ++ [df]).

Definition load (r : ref) : M (DataFrame value) :=
  fun s => (nth r s empty_frame, s).

Definition write (r : ref) (df : DataFrame value) : M unit :=
  fun s => (tt, set_nth r df s).

Fixpoint for_each {A} (l : list A) (body : A -> M unit) : M unit :=
  match l with
  | [] => ret tt
  | x :: l' => bind (body x) (fun _ => for_each l' body)
  end.

End Store.

Notation "x <- m ;; k" := (Store.bind m (fun x => k))
  (at level 61, m at next level, right associativity).
Notation "m ;;; k" := (Store.bind m (fun _ => k))
  (at level 61, right associativity).

(** ** Lines 65-90: the two sheets *)

(** Ascending order of [sort_values]: NaN sorts last. *)
Definition key_le (a b : option Number.num) : bool :=
  match a, b with
  | _, None => true
  | None, Some _ => false
  | Some x, Some y => Number.leb x y
  end.

Section Sort.
Context {A : Type} (key : A -> option Number.num).

Fixpoint insert_sorted (x : A) (l : list A) : list A :=
  match l with
  | [] => [x]
  | y :: l' =>
      if key_le (key x) (key y) then x :: l else y :: insert_sorted x l'
  end.

Definition sort_by (l : list A) : list A := fold_right insert_sorted [] l.

End Sort.

(** [df.sort_values(by=name, ascending=True)] on a float column.  pandas
    leaves the order of rows with equal keys to its sorting routine; the
    model keeps them in their original order. *)
Definition sort_values (name : string) (df : DataFrame value) : DataFrame value :=
  let j := get_loc name (columns df) in
  mkDF (columns df)
       (sort_by (fun lr => as_float (nth j (snd lr) VNaN)) (rows df)).

(** [Series.count()]: the cells that are not NaN. *)
Definition count (col : list value) : nat := length (filter notna col).

(** [Series.sum()] with its default [skipna=True]. *)
Definition sum (col : list value) : value :=
  of_float
    (fold_right (fun v acc => match as_float v with
                              | Some x => Number.add (Some x) acc
                              | None => acc
                              end)
                (Some (Number.of_Z 0)) col).

(** [pd.DataFrame([record])] *)
Definition frame_of_record (record : list (string * value)) : DataFrame value :=
  mkDF (map fst record) [(0, map snd record)].

Definition reindex (cols src : list string) (row : list value) : list value :=
  map (fun c => match find_loc c src with
                | Some j => nth j row VNaN
                | None => VNaN
                end) cols.

(** [pd.concat([a, b], ignore_index=True)] *)
Definition concat2 (a b : DataFrame value) : DataFrame value :=
  let cols :=
    columns a
    ++ filter (fun c => negb (existsb (String.eqb c) (columns a))) (columns b) in
  mkDF cols
       (renumber (map (fun lr => reindex cols (columns a) (snd lr)) (rows a)
                  ++ map (fun lr => reindex cols (columns b) (snd lr)) (rows b))).

Fixpoint mask_filter {A} (mask : list bool) (l : list A) : list A :=
  match mask, l with
  | m :: mask', x :: l' =>
      if m then x :: mask_filter mask' l' else mask_filter mask' l'
  | _, _ => []
  end.

(** [df.drop(columns=names)] *)
Definition drop_columns (names : list string) (df : DataFrame value)
  : DataFrame value :=
  let keep := map (fun c => negb (existsb (String.eqb c) names)) (columns df) in
  mkDF (mask_filter keep (columns df))
       (map (fun lr => (fst lr, mask_filter keep (snd lr))) (rows df)).

(** [df.reset_index(drop=True)] *)
Definition reset_index (df : DataFrame value) : DataFrame value :=
  mkDF (columns df) (renumber (map snd (rows df))).

(** Lines 66-75 with [flag = 6], [amount = 7], [other = [8; 9]], and lines
    78-87 with [flag = 8], [amount = 9], [other = [6; 7]].  The frames are
    allocated in the order of the source: the selection [df[mask]], its
    [copy()], the result of [sort_values], the one-row frame of the
    totals, the result of [pd.concat] and the result of [drop]. *)
Definition sheet (flag amount : nat) (other : list nat) (df : Store.ref)
  : Store.M Store.ref :=
  d <- Store.load df ;;
  r1 <- Store.alloc (select (fun row => notna (nth flag row VNaN)) d) ;;
  d1 <- Store.load r1 ;;
  r2 <- Store.alloc d1 ;;
  d2 <- Store.load r2 ;;
  r3 <- Store.alloc (sort_values (nth amount (columns d) "") d2) ;;
  d3 <- Store.load r3 ;;
  let total :=
    [(nth 0 (columns d) "", VStr "TOTAL");
     (nth flag (columns d) "", VNum (Number.of_nat (count (icolumn VNaN flag d3))));
     (nth amount (columns d) "", sum (icolumn VNaN amount d3))] in
  rt <- Store.alloc (frame_of_record total) ;;
  dt <- Store.load rt ;;
  r4 <- Store.alloc (concat2 d3 dt) ;;
  d4 <- Store.load r4 ;;
  Store.alloc (drop_columns (map (fun j => nth j (columns d) "") other) d4).

Section Clean.

(** [pd.to_datetime(column, errors="coerce", dayfirst=True).dt.date]:
    one optional date per cell of the column. *)
Variable to_datetime : list cell -> list (option date).

(** Lines 58-63 on the frame [df] points to; [raw] is that frame as line
    55 left it.  Every column is assigned once, so the column read on the
    right-hand side is still the column of [raw]. *)
Definition convert_columns (raw : DataFrame cell) (df : Store.ref)
  : Store.M unit :=
  Store.for_each num_cols (fun col =>
    d <- Store.load df ;;
    Store.write df (assign col (map coerce_cell (column NaN col raw)) d)) ;;;
  d <- Store.load df ;;
  Store.write df
    (assign "Value Date"
       (map date_value (to_datetime (column NaN "Value Date" raw))) d).

(** Lines 57-90. *)
Definition sheets (raw : DataFrame cell)
  : Store.M (Store.ref * Store.ref * Store.ref) :=
  df <- Store.alloc (as_objects raw) ;;
  convert_columns raw df ;;;
  df_debit <- sheet 6 7 [8; 9] df ;;
  df_credit <- sheet 8 9 [6; 7] df ;;
  d <- Store.load df ;;
  df' <- Store.alloc (reset_index d) ;;
  Store.ret (df', df_debit, df_credit).

(** The three frames written to the sheets "Cleaned", "Debit", "Credit". *)
Record Workbook : Type :=
  mkWorkbook { Cleaned : DataFrame value;
               Debit : DataFrame value;
               Credit : DataFrame value }.

Definition clean_pdf (df_list : list RawTable) : error + Workbook :=
  match raw_table df_list with
  | inl e => inl e
  | inr df =>
      match clean_rows df with
      | inl e => inl e
      | inr df' =>
          let '((r, rd, rc), s) := sheets df' [] in
          inr (mkWorkbook (nth r s Store.empty_frame)
                          (nth rd s Store.empty_frame)
                          (nth rc s Store.empty_frame))
      end
  end.

End Clean.

(** ** What the program computes, as functions of the frame of line 55 *)

Definition field {A} (d : A) (name : string) (df : DataFrame A) (row : list A) : A :=
  nth (get_loc name (columns df)) row d.

(** The frames one run of [sheet] allocates, in order. *)
Definition sheet_objects (flag amount : nat) (other : list nat)
  (d : DataFrame value) : list (DataFrame value) :=
  let d1 := select (fun row => notna (nth flag row VNaN)) d in
  let d3 := sort_values (nth amount (columns d) "") d1 in
  let dt :=
    frame_of_record
      [(nth 0 (columns d) "", VStr "TOTAL");
       (nth flag (columns d) "",
        VNum (Number.of_nat (count (icolumn VNaN flag d3))));
       (nth amount (columns d) "", sum (icolumn VNaN amount d3))] in
  let d4 := concat2 d3 dt in
  [d1; d1; d3; dt; d4;
   drop_columns (map (fun j => nth j (columns d) "") other) d4].

Definition sheet_of (flag amount : nat) (other : list nat)
  (d : DataFrame value) : DataFrame value :=
  last (sheet_objects flag amount other d) Store.empty_frame.

Section Pure.

Variable to_datetime : list cell -> list (option date).

(** The frame [df] of line 63. *)
Definition coerce (raw : DataFrame cell) : DataFrame value :=
  assign "Value Date"
    (map date_value (to_datetime (column NaN "Value Date" raw)))
    (fold_left
       (fun d col => assign col (map coerce_cell (column NaN col raw)) d)
       num_cols (as_objects raw)).

End Pure.

(** ** Shape of the frames: ten named columns, ten cells per row *)

Definition ten_wide {A} (df : DataFrame A) : Prop :=
  columns df = column_names
  /\ Forall (fun lr => length (snd lr) = 10) (rows df).

Definition concat_width (df_list : list RawTable) : nat :=
  fold_right Nat.max 0 (map ncols df_list).

(** ** The coercion, row by row *)

Definition coerce_row (dv : value) (r : list cell) : list value :=
  match r with
  | [c0; _; c2; c3; c4; c5; c6; c7; c8; c9] =>
      [coerce_cell c0; dv; coerce_cell c2; of_cell c3; of_cell c4; of_cell c5;
       coerce_cell c6; coerce_cell c7; coerce_cell c8; coerce_cell c9]
  | _ => []
  end.

Fixpoint coerce_rows (rs : list (nat * list cell)) (dates : list value)
  : list (nat * list value) :=
  match rs with
  | [] => []
  | lr :: rs' =>
      (fst lr, coerce_row (hd VNaN dates) (snd lr)) :: coerce_rows rs' (tl dates)
  end.

Definition numeric_position (j : nat) : bool :=
  existsb (Nat.eqb j) [0; 2; 6; 7; 8; 9].

Definition no_dates (col : list cell) : list (option date) :=
  map (fun _ => None) col.

(** ** The scenario of the specification *)

Definition scenario : list RawTable :=
  [mkRaw 10
     [["1"; "01/02/2024"; "100"; "REF1"; "Acme"; "Payment"; "1"; "50.00"; ""; ""];
      [""; ""; ""; ""; ""; "note continued"; ""; ""; ""; ""];
      ["table from page 2 of 5"; ""; ""; ""; ""; ""; ""; ""; ""; ""]]].

(** A table three columns wide. *)
Definition narrow : list RawTable := [mkRaw 3 [["1"; "01/02/2024"; "100"]]].

(** A data row followed by two continuation rows. *)
Definition two_continuations : list RawTable :=
  [mkRaw 10
     [["1"; "01/02/2024"; "100"; "REF1"; "Acme"; "Payment"; "1"; "50.00"; ""; ""];
      [""; ""; ""; ""; ""; "note A"; ""; ""; ""; ""];
      [""; ""; ""; ""; ""; "note B"; ""; ""; ""; ""]]].

Definition priced : list RawTable :=
  [mkRaw 10 [["1"; "01/02/2024"; "100"; "REF1"; "Acme"; "Payment"; "1";
              "1,250.50"; ""; "abc"]]].

Definition priced_frame : DataFrame cell :=
  mkDF column_names
       [(0, [Str "1"; Str "01/02/2024"; Str "100"; Str "REF1"; Str "Acme";
             Str "Payment"; Str "1"; Str "1,250.50"; Str ""; Str "abc"])].

(** ** The two sheets, row by row *)

Definition key_at (j : nat) (lr : nat * list value) : option Number.num :=
  as_float (nth j (snd lr) VNaN).

(** The rows [sheet flag amount _] selects, in the order of the frame, and
    as it sorts them. *)
Definition selected (flag : nat) (df : DataFrame value) : list (nat * list value) :=
  filter (fun lr => notna (nth flag (snd lr) VNaN)) (rows df).

Definition sorted_selection (flag amount : nat) (df : DataFrame value)
  : list (nat * list value) :=
  sort_by (key_at amount) (selected flag df).

Definition debit_cells (r : list value) : list value :=
  [nth 0 r VNaN; nth 1 r VNaN; nth 2 r VNaN; nth 3 r VNaN; nth 4 r VNaN;
   nth 5 r VNaN; nth 6 r VNaN; nth 7 r VNaN].

Definition credit_cells (r : list value) : list value :=
  [nth 0 r VNaN; nth 1 r VNaN; nth 2 r VNaN; nth 3 r VNaN; nth 4 r VNaN;
   nth 5 r VNaN; nth 8 r VNaN; nth 9 r VNaN].

Definition trailer (flag amount : nat) (sel : list (nat * list value))
  : list value :=
  [VStr "TOTAL"; VNaN; VNaN; VNaN; VNaN; VNaN;
   VNum (Number.of_nat (count (map (fun lr => nth flag (snd lr) VNaN) sel)));
   sum (map (fun lr => nth amount (snd lr) VNaN) sel)].

Definition debit_columns : list string :=
  ["No."; "Value Date"; "Tran Type"; "Tran Ref"; "Participant";
   "Additional Information"; "DR"; "Amount_DR"].

Definition credit_columns : list string :=
  ["No."; "Value Date"; "Tran Type"; "Tran Ref"; "Participant";
   "Additional Information"; "CR"; "Amount_CR"].

(** ** Order of the keys *)

Definition key_order (a b : option Number.num) : Prop := key_le a b = true.

(** ** Sums and counts *)

Definition sum_step (v : value) (acc : option Number.num) : option Number.num :=
  match as_float v with
  | Some x => Number.add (Some x) acc
  | None => acc
  end.

(** The rows of a frame without their labels, the rows of a sheet before
    its last row, and that last row. *)
Definition cells_of {A} (df : DataFrame A) : list (list A) := map snd (rows df).

Definition non_trailer (df : DataFrame value) : list (list value) :=
  removelast (cells_of df).

Definition trailer_row (df : DataFrame value) : list value :=
  last (cells_of df) [].

(** The rows of the Ledger whose field [name] is not null. *)
Definition with_flag (name : string) (df : DataFrame value) : list (list value) :=
  filter (fun r => notna (field VNaN name df r)) (cells_of df).

(** The row that stands alone in a sheet no Ledger row was selected for. *)
Definition empty_trailer : list value :=
  [VStr "TOTAL"; VNaN; VNaN; VNaN; VNaN; VNaN;
   VNum (Number.Fin (0 # 1)); VNum (Number.Fin (0 # 1))].

(** A statement with debits in no particular order, one of them without
    a readable amount, and one credit. *)
Definition mixed : list RawTable :=
  [mkRaw 10
     [["1"; "01/02/2024"; "100"; "R1"; "Acme"; "Rent"; "1"; "300.00"; ""; ""];
      ["2"; "02/02/2024"; "100"; "R2"; "Bolt"; "Fee"; "1"; "abc"; ""; ""];
      ["3"; "03/02/2024"; "100"; "R3"; "Core"; "Stock"; "1"; "1,250.50"; ""; ""];
      ["4"; "04/02/2024"; "200"; "R4"; "Dune"; "Refund"; ""; ""; "1"; "20"];
      ["5"; "05/02/2024"; "100"; "R5"; "Echo"; "Toll"; "1"; "50"; ""; ""]]].

Definition workbook_of (df_list : list RawTable) : Workbook :=
  match clean_pdf no_dates df_list with
  | inr wb => wb
  | inl _ => mkWorkbook Store.empty_frame Store.empty_frame Store.empty_frame
  end.

Definition mixed_workbook : Workbook := Eval vm_compute in workbook_of mixed.

Definition scenario_workbook : Workbook :=
  Eval vm_compute in workbook_of scenario.

(** The frames of a run: after line 35, after line 45, after line 55. *)
Definition frame_of (df_list : list RawTable) : DataFrame cell :=
  match raw_table df_list with
  | inr df => df
  | inl _ => mkDF [] []
  end.

Definition cleaned_rows_of (df_list : list RawTable) : DataFrame cell :=
  match clean_rows (frame_of df_list) with
  | inr t => t
  | inl _ => mkDF [] []
  end.

Definition scenario_frame : DataFrame cell :=
  Eval vm_compute in frame_of scenario.

Definition scenario_filtered : DataFrame cell :=
  Eval vm_compute in filtered scenario_frame.

Definition scenario_rows : DataFrame cell :=
  Eval vm_compute in cleaned_rows_of scenario.

(** ** Index labels and the rows each stage removes *)

Definition labels {A} (df : DataFrame A) : list nat := map fst (rows df).

Definition artifact_rows (df : DataFrame cell) : list (nat * list cell) :=
  filter (fun lr => is_artifact (snd lr)) (rows df).

Definition empty_rows (df : DataFrame cell) : list (nat * list cell) :=
  filter (fun lr => all_na (snd lr) || is_blank (snd lr)) (rows df).

Definition header_rows (df : DataFrame cell) : list (nat * list cell) :=
  filter (fun lr => is_header (snd lr)) (rows df).

(** [rows_to_drop] when the loop of lines 49-54 ends. *)
Definition continuation_labels (df : DataFrame cell) : list nat :=
  snd (merge_loop df).

(** What holds of the state of the loop before the turn for row [s]. *)
Definition loop_invariant (ls : list nat) (s : nat)
  (st : DataFrame cell * list nat) : Prop :=
  labels (fst st) = ls
  /\ NoDup (snd st)
  /\ forall x, In x (snd st) -> exists i, i < s /\ nth_error ls i = Some x.

(** ** Blank text *)

Definition blank (s : string) : bool := Text.is_empty (Text.strip s).

(** ** Rows the loop may have written *)

(** [r] is [r0], or [r0] with a non-blank text written in column 5. *)
Definition extended (r0 r : list cell) : Prop :=
  r = r0 \/ exists s, blank s = false /\ r = set_nth 5 (Str s) r0.

Definition same_row (a b : nat * list cell) : Prop :=
  fst b = fst a /\ extended (snd a) (snd b).

Definition has_marker (c : cell) : bool :=
  Text.contains_ci "table from page" (astype_str c).

(** The table with which a second run starts: a note that ends in
    "table from" and its continuation row that begins with "page". *)
Definition split_marker : list RawTable :=
  [mkRaw 10
     [["1"; "01/02/2024"; "100"; "REF1"; "Acme"; "see table from"; "1";
       "50.00"; ""; ""];
      [""; ""; ""; ""; ""; "page 2"; ""; ""; ""; ""]]].

(** ** The loop of lines 49-55 read as one pass over the rows *)

(** The text line 53 writes in the row above a continuation row. *)
Definition joined (a b : list cell) : cell :=
  Str (astype_str (nth 5 a NaN) ++ " " ++ astype_str (nth 5 b NaN)).

(** Row [a] after the turn of the loop for the row below it, if any. *)
Definition absorb (a : nat * list cell) (next : option (nat * list cell))
  : nat * list cell :=
  match next with
  | Some b =>
      if is_continuation (snd b)
      then (fst a, set_nth 5 (joined (snd a) (snd b)) (snd a))
      else a
  | None => a
  end.

Fixpoint absorbed (rs : list (nat * list cell)) : list (nat * list cell) :=
  match rs with
  | [] => []
  | a :: rs' => absorb a (hd_error rs') :: absorbed rs'
  end.

(** The rows below the first one: continuation rows go, the others
    stay, each with the text of a continuation row right below it. *)
Fixpoint keep_tail (rs : list (nat * list cell)) : list (nat * list cell) :=
  match rs with
  | [] => []
  | a :: rs' =>
      if is_continuation (snd a) then keep_tail rs'
      else absorb a (hd_error rs') :: keep_tail rs'
  end.

Definition single_pass (rs : list (nat * list cell)) : list (nat * list cell) :=
  match rs with
  | [] => []
  | a :: rs' => absorb a (hd_error rs') :: keep_tail rs'
  end.

(** Rows for examples: a transaction, and a row with text in the
    Additional Information column only. *)
Definition payment_row : nat * list cell :=
  (0, [Str "1"; Str "01/02/2024"; Str "100"; Str "REF1"; Str "Acme";
       Str "Payment"; Str "1"; Str "50.00"; Str ""; Str ""]).

Definition note_row (label : nat) (text : string) : nat * list cell :=
  (label, [Str ""; Str ""; Str ""; Str ""; Str ""; Str text;
           Str ""; Str ""; Str ""; Str ""]).

(** [s] has [pat] in it, letter case apart. *)
Definition occurs_in (pat s : string) : Prop :=
  exists pre mid post,
    s = (pre ++ mid ++ post)%string
    /\ Number.lower_string mid = Number.lower_string pat.


(** A row of an extracted table as [raw_table] holds it: its cells, then
    missing values up to the width of the widest table, cut to [n]
    cells. *)
Definition padded (n w : nat) (r : list string) : list cell :=
  firstn n (map Str r ++ repeat NaN (w - length r)).

(** What a cell of the Ledger may hold, by column. *)
Definition number_or_null (v : value) : bool :=
  match v with VNum _ | VNaN => true | _ => false end.

Definition date_or_null (v : value) : bool :=
  match v with VDate _ | VNaN => true | _ => false end.

Definition text_or_null (v : value) : bool :=
  match v with VStr _ | VNaN => true | _ => false end.

Definition ledger_typed (r : list value) : bool :=
  match r with
  | [no; vdate; ttype; tref; part; info; dr; adr; cr; acr] =>
      number_or_null no && date_or_null vdate && number_or_null ttype
      && text_or_null tref && text_or_null part && text_or_null info
      && number_or_null dr && number_or_null adr
      && number_or_null cr && number_or_null acr
  | _ => false
  end.

Definition text_cols : list string :=
  ["Tran Ref"; "Participant"; "Additional Information"].

(** A character that line 60 removes before it reads the number. *)
Definition space_or_comma (c : ascii) : bool :=
  Text.is_space c || Ascii.eqb c ",".

(** The fields of a sheet that its last row leaves without a value. *)
Definition unset_in_trailer : list string :=
  ["Value Date"; "Tran Type"; "Tran Ref"; "Participant";
   "Additional Information"].

(** ** Lines 92-94: the name of the workbook

    [os.path] is read as on POSIX systems.  The name of the uploaded file
    and the directory [tempfile.gettempdir()] returns are inputs. *)

Module Path.

(** [s.rfind(c)] for a one-character [c]: the index of its last
    occurrence, -1 when there is none. *)
Fixpoint rfind_from (c : ascii) (s : string) (i found : Z) : Z :=
  match s with
  | EmptyString => found
  | String x s' =>
      rfind_from c s' (i + 1)%Z (if Ascii.eqb x c then i else found)
  end.

Definition rfind (c : ascii) (s : string) : Z := rfind_from c s 0%Z (-1)%Z.

(** The loop of [splitext] over the [n] indices from [i]: whether one of
    the characters there is not a dot. *)
Fixpoint not_all_dots (p : string) (i n : nat) : bool :=
  match n with
  | O => false
  | S n' =>
      match String.get i p with
      | Some c => if Ascii.eqb c "." then not_all_dots p (S i) n' else true
      | None => true
      end
  end.

(** [os.path.splitext(p)] *)
Definition splitext (p : string) : string * string :=
  let sepIndex := rfind "/" p in
  let dotIndex := rfind "." p in
  if (sepIndex <? dotIndex)%Z
     && not_all_dots p (Z.to_nat (sepIndex + 1))
                     (Z.to_nat (dotIndex - (sepIndex + 1)))
  then (substring 0 (Z.to_nat dotIndex) p,
        substring (Z.to_nat dotIndex) (String.length p - Z.to_nat dotIndex) p)
  else (p, "").

Definition starts_with_sep (s : string) : bool :=
  match s with
  | String c _ => Ascii.eqb c "/"
  | EmptyString => false
  end.

Fixpoint ends_with_sep (s : string) : bool :=
  match s with
  | EmptyString => false
  | String c EmptyString => Ascii.eqb c "/"
  | String _ s' => ends_with_sep s'
  end.

(** [os.path.join(a, b)] *)
Definition join (a b : string) : string :=
  if starts_with_sep b then b
  else if Text.is_empty a || ends_with_sep a then a ++ b
  else a ++ "/" ++ b.

(** Lines 93-94. *)
Definition pdf_name (name : string) : string := fst (splitext name).

Definition output_path (tmp name : string) : string :=
  join tmp (pdf_name name ++ "_clean.xlsx").

(** [c] does not occur in [s]. *)
Definition without (c : ascii) (s : string) : bool :=
  Text.all_chars (fun x => negb (Ascii.eqb x c)) s.

End Path.

(** * Proofs *)

(** ** Running the program on the store *)

Lemma nth_snoc {A} (s : list A) (x d : A) : nth (length s) (s ++ [x]) d = x.
Proof.
  rewrite app_nth2 by lia. now rewrite Nat.sub_diag.
Qed.

Lemma nth_old {A} (s t : list A) (r : nat) (d : A) :
  r < length s -> nth r (s ++ t) d = nth r s d.
Proof. intros H. now apply app_nth1. Qed.

Lemma sheet_run (flag amount : nat) (other : list nat) (df : Store.ref)
  (s : Store.store) :
  df < length s ->
  sheet flag amount other df s =
    (length s + 5,
     s ++ sheet_objects flag amount other (nth df s Store.empty_frame)).
Proof.
  intros Hdf.
  unfold sheet, Store.bind, Store.load, Store.alloc, sheet_objects.
  set (d := nth df s Store.empty_frame).
  repeat rewrite nth_snoc.
  repeat rewrite length_app. simpl length.
  f_equal; [lia|].
  repeat rewrite <- app_assoc. reflexivity.
Qed.

Lemma convert_columns_run (td : list cell -> list (option date))
  (raw : DataFrame cell) (x : DataFrame value) :
  convert_columns td raw 0 [x] =
    (tt,
     [assign "Value Date"
        (map date_value (td (column NaN "Value Date" raw)))
        (fold_left
           (fun d col => assign col (map coerce_cell (column NaN col raw)) d)
           num_cols x)]).
Proof. reflexivity. Qed.

Lemma sheets_run (td : list cell -> list (option date)) (raw : DataFrame cell) :
  sheets td raw [] =
    ((13, 6, 12),
     [coerce td raw]
     ++ sheet_objects 6 7 [8; 9] (coerce td raw)
     ++ sheet_objects 8 9 [6; 7] (coerce td raw)
     ++ [reset_index (coerce td raw)]).
Proof.
  unfold sheets, Store.bind at 1 2.
  change (Store.alloc (as_objects raw) []) with (0, [as_objects raw]).
  cbv beta iota.
  rewrite convert_columns_run.
  fold (coerce td raw).
  unfold Store.bind at 1.
  rewrite sheet_run by (simpl; lia).
  unfold Store.bind at 1.
  rewrite sheet_run by (simpl; lia).
  reflexivity.
Qed.

(** [clean_pdf] succeeds exactly when the frame can be given its ten
    names, and then the workbook is made of the three frames below. *)
Lemma clean_pdf_inr (td : list cell -> list (option date))
  (df_list : list RawTable) (df t : DataFrame cell) :
  raw_table df_list = inr df ->
  clean_rows df = inr t ->
  clean_pdf td df_list =
    inr (mkWorkbook (reset_index (coerce td t))
                    (sheet_of 6 7 [8; 9] (coerce td t))
                    (sheet_of 8 9 [6; 7] (coerce td t))).
Proof.
  intros H Ht. unfold clean_pdf. rewrite H, Ht, sheets_run. reflexivity.
Qed.

Lemma clean_pdf_inl (td : list cell -> list (option date))
  (df_list : list RawTable) (e : error) :
  raw_table df_list = inl e -> clean_pdf td df_list = inl e.
Proof.
  intros H. unfold clean_pdf. now rewrite H.
Qed.

Lemma clean_pdf_rows_inl (td : list cell -> list (option date))
  (df_list : list RawTable) (df : DataFrame cell) (e : error) :
  raw_table df_list = inr df -> clean_rows df = inl e ->
  clean_pdf td df_list = inl e.
Proof.
  intros H He. unfold clean_pdf. now rewrite H, He.
Qed.

Lemma clean_rows_inl (df : DataFrame cell) (e : error) :
  clean_rows df = inl e -> e = IndexError.
Proof.
  unfold clean_rows, drop_headers.
  destruct (columns (drop_empty (drop_artifacts df))); congruence.
Qed.

(** When [clean_rows] returns a frame, no filter met a frame without rows
    and the frame is [fix_continuations] of the filtered rows. *)
Lemma clean_rows_inr (df t : DataFrame cell) :
  clean_rows df = inr t ->
  drop_artifacts df = select (fun row => negb (is_artifact row)) df
  /\ drop_empty (drop_artifacts df)
     = select (fun row => negb (is_blank row))
         (select (fun row => negb (all_na row)) (drop_artifacts df))
  /\ drop_headers (drop_empty (drop_artifacts df)) = inr (filtered df)
  /\ t = fix_continuations (filtered df).
Proof.
  unfold clean_rows, filtered, drop_headers, drop_empty, drop_artifacts,
    dropna_all, drop_where.
  destruct (rows df) as [|lr rs] eqn:E1.
  - cbn. discriminate.
  - destruct (rows (select (fun row => negb (all_na row))
                      (select (fun row => negb (is_artifact row)) df)))
      as [|lr' rs'] eqn:E2.
    + cbn. discriminate.
    + cbn [columns select]. destruct (columns df) as [|c cs] eqn:E3.
      * discriminate.
      * intros H. injection H as <-. repeat split.
Qed.

(** ** Shape of the frames *)

Lemma reindex_raw_length (w : nat) (r : list string) :
  length (reindex_raw w r) = w.
Proof. unfold reindex_raw. now rewrite length_map, length_seq. Qed.

Lemma pd_concat_inr (df_list : list RawTable) :
  df_list <> [] ->
  pd_concat df_list =
    inr (mkTable (concat_width df_list)
           (renumber (flat_map (fun t => map (reindex_raw (concat_width df_list))
                                             (cells t)) df_list))).
Proof.
  destruct df_list; [congruence | reflexivity].
Qed.

Lemma pd_concat_rows (df_list : list RawTable) (t : Table) :
  pd_concat df_list = inr t ->
  Forall (fun lr => length (snd lr) = width t) (body t).
Proof.
  intros H.
  assert (Hne : df_list <> []) by (destruct df_list; [discriminate|congruence]).
  rewrite pd_concat_inr in H by assumption.
  injection H as <-. cbn [width body]. unfold renumber.
  apply Forall_forall. intros [l r] Hin. cbn [snd].
  apply in_combine_r in Hin. apply in_flat_map in Hin.
  destruct Hin as [t [_ Hin]]. apply in_map_iff in Hin.
  destruct Hin as [r0 [<- _]]. apply reindex_raw_length.
Qed.

Lemma first_columns_rows (n : nat) (t : Table) :
  Forall (fun lr => length (snd lr) = width t) (body t) ->
  Forall (fun lr => length (snd lr) = width (first_columns n t))
         (body (first_columns n t)).
Proof.
  intros H. cbn [width body first_columns]. rewrite Forall_forall in *.
  intros lr Hin. apply in_map_iff in Hin. destruct Hin as [lr0 [<- Hin]].
  cbn [snd]. rewrite length_firstn. now rewrite (H _ Hin).
Qed.

Lemma set_columns_inr (names : list string) (t : Table) (df : DataFrame cell) :
  set_columns names t = inr df ->
  width t = length names /\ df = mkDF names (body t).
Proof.
  unfold set_columns. destruct (Nat.eqb_spec (width t) (length names));
    [|discriminate].
  intros H. injection H as <-. now split.
Qed.

Lemma raw_table_wide (df_list : list RawTable) (df : DataFrame cell) :
  raw_table df_list = inr df -> ten_wide df.
Proof.
  unfold raw_table. destruct (pd_concat df_list) as [e|t] eqn:Hc; [discriminate|].
  intros H. apply set_columns_inr in H. destruct H as [Hw ->].
  split; [reflexivity|]. cbn [rows].
  pose proof (first_columns_rows 10 t (pd_concat_rows _ _ Hc)) as HF.
  rewrite Hw in HF. exact HF.
Qed.

Lemma select_wide {A} (keep : list A -> bool) (df : DataFrame A) :
  ten_wide df -> ten_wide (select keep df).
Proof.
  intros [Hc Hr]. split; [exact Hc|]. cbn [rows select].
  rewrite Forall_forall in *. intros lr Hin. apply filter_In in Hin.
  now apply Hr.
Qed.

Lemma drop_wide {A} (labels : list nat) (df : DataFrame A) :
  ten_wide df -> ten_wide (drop labels df).
Proof.
  intros [Hc Hr]. split; [exact Hc|]. cbn [rows drop].
  rewrite Forall_forall in *. intros lr Hin. apply filter_In in Hin.
  now apply Hr.
Qed.

Lemma set_nth_length {A} (n : nat) (x : A) (l : list A) :
  length (set_nth n x l) = length l.
Proof.
  revert n. induction l as [|y l IH]; intros [|n]; simpl; auto.
Qed.

Lemma update_nth_Forall {A} (P : A -> Prop) (f : A -> A) (n : nat) (l : list A) :
  (forall a, P a -> P (f a)) -> Forall P l -> Forall P (update_nth n f l).
Proof.
  intros Hf H. revert n. induction H as [|y l Hy Hl IH]; intros [|n]; simpl;
    constructor; auto.
Qed.

Lemma iat_set_wide {A} (df : DataFrame A) (i j : nat) (v : A) :
  ten_wide df -> ten_wide (iat_set df i j v).
Proof.
  intros [Hc Hr]. split; [exact Hc|]. cbn [rows iat_set].
  apply update_nth_Forall; [|exact Hr].
  intros [l r] H. cbn [snd fst] in *. now rewrite set_nth_length.
Qed.

Lemma merge_step_wide (st : DataFrame cell * list nat) (i : nat) :
  ten_wide (fst st) -> ten_wide (fst (merge_step st i)).
Proof.
  destruct st as [df dr]. unfold merge_step.
  destruct (is_continuation (iloc df i)); cbn [fst]; auto using iat_set_wide.
Qed.

Lemma fold_merge_wide (l : list nat) (st : DataFrame cell * list nat) :
  ten_wide (fst st) -> ten_wide (fst (fold_left merge_step l st)).
Proof.
  revert st. induction l as [|i l IH]; intros st H; simpl; auto.
  apply IH. now apply merge_step_wide.
Qed.

Lemma fix_continuations_wide (df : DataFrame cell) :
  ten_wide df -> ten_wide (fix_continuations df).
Proof.
  intros H. unfold fix_continuations.
  pose proof (fold_merge_wide (seq 1 (len df - 1)) (df, []) H) as Hm.
  fold (merge_loop df) in Hm. destruct (merge_loop df) as [df' dr].
  now apply drop_wide.
Qed.

Lemma clean_rows_wide (df t : DataFrame cell) :
  ten_wide df -> clean_rows df = inr t -> ten_wide t.
Proof.
  intros H Ht. apply clean_rows_inr in Ht. destruct Ht as [_ [_ [_ ->]]].
  unfold filtered.
  apply fix_continuations_wide. repeat apply select_wide. exact H.
Qed.

(** ** The coercion, row by row *)

Lemma assign_rows_map {A B} (j : nat) (d : A) (g : B -> nat * list A)
  (h : B -> A) (rs : list B) :
  assign_rows j d (map g rs) (map h rs) =
    map (fun b => (fst (g b), set_nth j (h b) (snd (g b)))) rs.
Proof.
  induction rs as [|b rs IH]; simpl; [reflexivity|]. now rewrite IH.
Qed.

Lemma coerce_rows_eq (td : list cell -> list (option date)) (raw : DataFrame cell) :
  ten_wide raw ->
  coerce td raw =
    mkDF column_names
         (coerce_rows (rows raw)
            (map date_value (td (column NaN "Value Date" raw)))).
Proof.
  intros [Hc Hr]. unfold coerce.
  generalize (map date_value (td (column NaN "Value Date" raw))) as dates.
  intros dates. unfold column, as_objects, num_cols. rewrite Hc.
  cbn [fold_left]. unfold assign. cbn [columns rows].
  change (get_loc "DR" column_names) with 6.
  change (get_loc "Amount_DR" column_names) with 7.
  change (get_loc "CR" column_names) with 8.
  change (get_loc "Amount_CR" column_names) with 9.
  change (get_loc "No." column_names) with 0.
  change (get_loc "Tran Type" column_names) with 2.
  change (get_loc "Value Date" column_names) with 1.
  repeat (rewrite map_map, assign_rows_map; cbn [fst snd]).
  f_equal. revert dates.
  induction Hr as [|[l r] rs Hlen _ IH]; intros dates; [reflexivity|].
  cbn [map assign_rows coerce_rows fst snd]. rewrite IH. f_equal. f_equal.
  cbn [snd] in Hlen.
  do 10 (destruct r as [|? r]; [discriminate Hlen|]).
  destruct r; [reflexivity | discriminate Hlen].
Qed.

Lemma coerce_rows_length (rs : list (nat * list cell)) (dates : list value) :
  length (coerce_rows rs dates) = length rs.
Proof.
  revert dates. induction rs; intros; simpl; auto.
Qed.

Lemma renumber_snd {A} (b : list (list A)) : map snd (renumber b) = b.
Proof.
  unfold renumber. generalize 0 as k.
  induction b as [|r b IH]; intros k; simpl; [reflexivity|]. now rewrite IH.
Qed.

Lemma renumber_length {A} (b : list (list A)) : length (renumber b) = length b.
Proof.
  rewrite <- (length_map snd). now rewrite renumber_snd.
Qed.

Lemma coerce_rows_numeric (j : nat) (rs : list (nat * list cell))
  (dates : list value) :
  numeric_position j = true ->
  Forall (fun lr => length (snd lr) = 10) rs ->
  map (fun r => nth j r VNaN) (map snd (coerce_rows rs dates)) =
    map (fun lr => coerce_cell (nth j (snd lr) NaN)) rs.
Proof.
  intros Hj Hr. revert dates.
  induction Hr as [|[l r] rs Hlen _ IH]; intros dates; [reflexivity|].
  cbn [map coerce_rows fst snd]. rewrite IH. f_equal.
  cbn [snd] in Hlen.
  do 10 (destruct r as [|? r]; [discriminate Hlen|]).
  destruct r; [|discriminate Hlen].
  do 10 (destruct j as [|j]; [first [reflexivity | discriminate Hj]|]).
  discriminate Hj.
Qed.

(** ** Errors, the scenario, the coercion *)

(** C2.  When the concatenated table has fewer than ten columns, the
    assignment of the ten column names fails and [clean_pdf] returns that
    error, the [ValueError] the specification calls SchemaError, whatever
    the rows are.  With ten columns or more that error is not raised:
    [clean_pdf] returns a workbook, or fails later, at line 45, because a
    row filter met a frame without rows. *)
Theorem schema_error (td : list cell -> list (option date))
  (df_list : list RawTable) (t : Table) :
  pd_concat df_list = inr t ->
  (width t < 10 -> clean_pdf td df_list = inl (LengthMismatch (width t) 10))
  /\ (10 <= width t ->
      (forall have want,
         clean_pdf td df_list <> inl (LengthMismatch have want))
      /\ ((exists wb, clean_pdf td df_list = inr wb)
          \/ clean_pdf td df_list = inl IndexError)).
Proof.
  intros Hc. split; intros Hw.
  - apply clean_pdf_inl. unfold raw_table. rewrite Hc.
    unfold set_columns. cbn [width first_columns].
    replace (Nat.min 10 (width t)) with (width t) by lia.
    destruct (Nat.eqb_spec (width t) (length column_names)) as [E|E];
      [cbn in E; lia | reflexivity].
  - assert (Hr : raw_table df_list =
                 inr (mkDF column_names (body (first_columns 10 t)))).
    { unfold raw_table. rewrite Hc. unfold set_columns.
      cbn [width first_columns].
      replace (Nat.min 10 (width t)) with 10 by lia. reflexivity. }
    assert (Hcases : (exists wb, clean_pdf td df_list = inr wb)
                     \/ clean_pdf td df_list = inl IndexError).
    { destruct (clean_rows (mkDF column_names (body (first_columns 10 t))))
        as [e|t'] eqn:Ht.
      - right. rewrite (clean_pdf_rows_inl td _ _ _ Hr Ht).
        now rewrite (clean_rows_inl _ _ Ht).
      - left. eexists. apply (clean_pdf_inr td _ _ _ Hr Ht). }
    split; [|exact Hcases].
    intros have want E. destruct Hcases as [[wb Hwb]|Hie]; congruence.
Qed.

Lemma schema_error_witness :
  clean_pdf no_dates narrow = inl (LengthMismatch 3 10)
  /\ forall have want,
       clean_pdf no_dates scenario <> inl (LengthMismatch have want).
Proof.
  split.
  - refine (proj1 (schema_error no_dates narrow _ eq_refl) _).
    simpl. lia.
  - refine (proj1 (proj2 (schema_error no_dates scenario _ eq_refl) _)).
    simpl. lia.
Defined.

(** C3.  On the three-row scenario the Ledger has exactly one row; its
    Additional Information is "Payment note continued", its Amount_DR is
    50, its DR is not null and its CR is null.  The marker row is gone. *)
Theorem scenario_ledger (td : list cell -> list (option date)) :
  exists wb l r,
    clean_pdf td scenario = inr wb
    /\ rows (Cleaned wb) = [(l, r)]
    /\ field VNaN "Additional Information" (Cleaned wb) r
       = VStr "Payment note continued"
    /\ field VNaN "Amount_DR" (Cleaned wb) r = VNum (Number.Fin (50 # 1))
    /\ notna (field VNaN "DR" (Cleaned wb) r) = true
    /\ field VNaN "CR" (Cleaned wb) r = VNaN.
Proof.
  eexists. exists 0. eexists.
  split; [vm_compute; reflexivity|].
  repeat split; reflexivity.
Qed.

(** C5.  Every cell of the columns DR, Amount_DR, CR, Amount_CR, No. and
    Tran Type of the Ledger is [coerce_cell] of the cell of the cleaned
    rows: commas removed, surrounding whitespace stripped, then read as a
    number.  The result is a number or null, null whenever the text does
    not read as a number; no error value exists for it.  The text
    "1,250.50" gives 1250.5 and the text "abc" gives null. *)
Theorem numeric_coercion (td : list cell -> list (option date))
  (df_list : list RawTable) (df t : DataFrame cell) (wb : Workbook) :
  raw_table df_list = inr df ->
  clean_rows df = inr t ->
  clean_pdf td df_list = inr wb ->
  (forall name, In name num_cols ->
     column VNaN name (Cleaned wb) = map coerce_cell (column NaN name t))
  /\ (forall c,
        coerce_cell c
        = of_float (to_numeric
                      (Text.strip (Text.remove_commas (astype_str c)))))
  /\ (forall c,
        to_numeric (Text.strip (Text.remove_commas (astype_str c))) = None ->
        coerce_cell c = VNaN)
  /\ (forall c, coerce_cell c = VNaN \/ exists x, coerce_cell c = VNum x)
  /\ coerce_cell (Str "1,250.50") = VNum (Number.Fin (2501 # 2))
  /\ coerce_cell (Str "abc") = VNaN.
Proof.
  intros Hraw Ht Hclean.
  rewrite (clean_pdf_inr td _ _ _ Hraw Ht) in Hclean. injection Hclean as <-.
  pose proof (clean_rows_wide _ _ (raw_table_wide _ _ Hraw) Ht) as Hw.
  split; [|split; [|split; [|split; [|split]]]].
  - intros name Hin. cbn [Cleaned].
    rewrite (coerce_rows_eq td _ Hw). destruct Hw as [Hc Hr].
    unfold column, reset_index. cbn [columns rows]. rewrite Hc.
    set (dates := map date_value _).
    rewrite <- (map_map snd (fun r => nth (get_loc name column_names) r VNaN)).
    rewrite renumber_snd.
    rewrite (map_map _ coerce_cell).
    apply coerce_rows_numeric; [|exact Hr].
    cbn in Hin.
    repeat (destruct Hin as [<-|Hin]; [reflexivity|]). contradiction.
  - reflexivity.
  - intros c Hc. unfold coerce_cell. now rewrite Hc.
  - intros c. unfold coerce_cell.
    destruct (to_numeric _) as [x|]; [right; now exists x | now left].
  - reflexivity.
  - reflexivity.
Qed.

Lemma numeric_coercion_witness :
  column VNaN "Amount_DR" (reset_index (coerce no_dates priced_frame))
  = [VNum (Number.Fin (2501 # 2))]
  /\ column VNaN "Amount_CR" (reset_index (coerce no_dates priced_frame))
     = [VNaN].
Proof.
  pose proof (numeric_coercion no_dates priced priced_frame priced_frame _
                eq_refl eq_refl
                (clean_pdf_inr no_dates priced priced_frame priced_frame
                   eq_refl eq_refl)) as H.
  split.
  - apply (proj1 H "Amount_DR"). simpl. tauto.
  - apply (proj1 H "Amount_CR"). simpl. tauto.
Defined.

(** C1 (the code departs from the claim).  With a data row followed by two
    continuation rows "note A" and "note B", both continuation rows are
    removed, but the retained row only receives "note A": the text of the
    second continuation row is appended to the first one, which is
    dropped. *)
Theorem second_continuation_lost :
  exists df t,
    raw_table two_continuations = inr df
    /\ clean_rows df = inr t
    /\ map snd (rows t)
       = [[Str "1"; Str "01/02/2024"; Str "100"; Str "REF1"; Str "Acme";
           Str "Payment note A"; Str "1"; Str "50.00"; Str ""; Str ""]]
    /\ map (fun lr => nth 5 (snd lr) NaN) (rows (fst (merge_loop df)))
       = [Str "Payment note A"; Str "note A note B"; Str "note B"]
    /\ snd (merge_loop df) = [1; 2].
Proof.
  eexists. eexists. split; [vm_compute; reflexivity|].
  split; [vm_compute; reflexivity|].
  repeat split; vm_compute; reflexivity.
Qed.

(** ** The two sheets, row by row *)

Lemma debit_sheet_rows (df : DataFrame value) :
  columns df = column_names ->
  columns (sheet_of 6 7 [8; 9] df) = debit_columns
  /\ map snd (rows (sheet_of 6 7 [8; 9] df))
     = map (fun lr => debit_cells (snd lr)) (sorted_selection 6 7 df)
       ++ [trailer 6 7 (sorted_selection 6 7 df)].
Proof.
  destruct df as [cols rs]. cbn [columns]. intros ->.
  unfold sheet_of, sheet_objects. cbn [last].
  unfold drop_columns, concat2, sort_values, select, frame_of_record, icolumn.
  cbn [columns rows].
  change (get_loc (nth 7 column_names "") column_names) with 7.
  fold (selected 6 (mkDF column_names rs)).
  change (sort_by _ (selected 6 (mkDF column_names rs)))
    with (sorted_selection 6 7 (mkDF column_names rs)).
  set (sel := sorted_selection 6 7 (mkDF column_names rs)).
  split; [reflexivity|].
  rewrite map_map. cbn [snd].
  rewrite <- (map_map snd). rewrite renumber_snd.
  rewrite map_app, map_map. reflexivity.
Qed.

Lemma credit_sheet_rows (df : DataFrame value) :
  columns df = column_names ->
  columns (sheet_of 8 9 [6; 7] df) = credit_columns
  /\ map snd (rows (sheet_of 8 9 [6; 7] df))
     = map (fun lr => credit_cells (snd lr)) (sorted_selection 8 9 df)
       ++ [trailer 8 9 (sorted_selection 8 9 df)].
Proof.
  destruct df as [cols rs]. cbn [columns]. intros ->.
  unfold sheet_of, sheet_objects. cbn [last].
  unfold drop_columns, concat2, sort_values, select, frame_of_record, icolumn.
  cbn [columns rows].
  change (get_loc (nth 9 column_names "") column_names) with 9.
  fold (selected 8 (mkDF column_names rs)).
  change (sort_by _ (selected 8 (mkDF column_names rs)))
    with (sorted_selection 8 9 (mkDF column_names rs)).
  set (sel := sorted_selection 8 9 (mkDF column_names rs)).
  split; [reflexivity|].
  rewrite map_map. cbn [snd].
  rewrite <- (map_map snd). rewrite renumber_snd.
  rewrite map_app, map_map. reflexivity.
Qed.

(** ** Sorting *)

Lemma leb_total (x y : Number.num) :
  Number.leb x y = true \/ Number.leb y x = true.
Proof.
  destruct x as [p| |], y as [q| |]; simpl; auto.
  rewrite !Qle_bool_iff. destruct (Qlt_le_dec p q) as [H|H]; auto.
  left. now apply Qlt_le_weak.
Qed.

Lemma leb_trans (x y z : Number.num) :
  Number.leb x y = true -> Number.leb y z = true -> Number.leb x z = true.
Proof.
  destruct x as [p| |], y as [q| |], z as [r| |]; simpl; auto;
    try discriminate.
  rewrite !Qle_bool_iff. apply Qle_trans.
Qed.

Lemma key_le_total (a b : option Number.num) :
  key_le a b = true \/ key_le b a = true.
Proof.
  destruct a as [x|], b as [y|]; simpl; auto using leb_total.
Qed.

Lemma key_le_trans (a b c : option Number.num) :
  key_le a b = true -> key_le b c = true -> key_le a c = true.
Proof.
  destruct a as [x|], b as [y|], c as [z|]; simpl; auto;
    try discriminate. apply leb_trans.
Qed.

Section SortFacts.
Context {A : Type} (key : A -> option Number.num).

Let before (x y : A) : Prop := key_order (key x) (key y).

Lemma insert_sorted_perm (x : A) (l : list A) :
  Permutation (insert_sorted key x l) (x :: l).
Proof.
  induction l as [|y l IH]; simpl; [reflexivity|].
  destruct (key_le (key x) (key y)); [reflexivity|].
  rewrite IH. apply perm_swap.
Qed.

Lemma sort_by_perm (l : list A) : Permutation (sort_by key l) l.
Proof.
  induction l as [|x l IH]; simpl; [reflexivity|].
  rewrite insert_sorted_perm. now constructor.
Qed.

Lemma insert_sorted_hd (x z : A) (l : list A) :
  before z x -> HdRel before z l -> HdRel before z (insert_sorted key x l).
Proof.
  intros Hzx Hl. destruct l as [|y l]; simpl; [now constructor|].
  destruct (key_le (key x) (key y)); constructor; auto.
  now inversion Hl.
Qed.

Lemma insert_sorted_sorted (x : A) (l : list A) :
  Sorted before l -> Sorted before (insert_sorted key x l).
Proof.
  induction 1 as [|y l Hs IH Hhd]; simpl; [repeat constructor|].
  destruct (key_le (key x) (key y)) eqn:E.
  - constructor; [now constructor | now constructor].
  - constructor; [exact IH|].
    apply insert_sorted_hd; [|exact Hhd].
    destruct (key_le_total (key x) (key y)) as [H|H]; [congruence | exact H].
Qed.

Lemma sort_by_sorted (l : list A) : Sorted before (sort_by key l).
Proof.
  induction l as [|x l IH]; simpl; [constructor|].
  now apply insert_sorted_sorted.
Qed.

Lemma sort_by_keys_sorted (l : list A) :
  StronglySorted key_order (map key (sort_by key l)).
Proof.
  pose proof (sort_by_sorted l) as H.
  apply Sorted_StronglySorted in H.
  - induction H as [|x m Hm IH Hall]; simpl; constructor; auto.
    rewrite Forall_forall in *. intros k Hk. apply in_map_iff in Hk.
    destruct Hk as [y [<- Hy]]. now apply Hall.
  - intros x y z. apply key_le_trans.
Qed.

End SortFacts.

(** ** Sums and counts *)

Lemma Qred_plus_swap (x y z : Q) :
  Qred (Qplus x (Qred (Qplus y z))) = Qred (Qplus y (Qred (Qplus x z))).
Proof.
  apply Qred_complete. rewrite !Qred_correct. ring.
Qed.

Lemma add_swap (x y : Number.num) (acc : option Number.num) :
  Number.add (Some x) (Number.add (Some y) acc)
  = Number.add (Some y) (Number.add (Some x) acc).
Proof.
  destruct x as [p| |], y as [q| |], acc as [[r| |]|]; try reflexivity.
  cbn [Number.add]. now rewrite Qred_plus_swap.
Qed.

Lemma sum_step_swap (v w : value) (acc : option Number.num) :
  sum_step v (sum_step w acc) = sum_step w (sum_step v acc).
Proof.
  unfold sum_step. destruct (as_float v), (as_float w); auto using add_swap.
Qed.

Lemma sum_perm (l l' : list value) : Permutation l l' -> sum l = sum l'.
Proof.
  intros H. unfold sum. f_equal.
  change (fold_right sum_step (Some (Number.of_Z 0)) l
          = fold_right sum_step (Some (Number.of_Z 0)) l').
  induction H as [|x l l' _ IH|x y l|l l' l'' _ IH1 _ IH2]; simpl.
  - reflexivity.
  - now rewrite IH.
  - apply sum_step_swap.
  - now rewrite IH1.
Qed.

Lemma count_all_notna {A} (f : A -> value) (l : list A) :
  Forall (fun a => notna (f a) = true) l -> count (map f l) = length l.
Proof.
  unfold count. induction 1 as [|a l Ha _ IH]; simpl; [reflexivity|].
  rewrite Ha. simpl. now rewrite IH.
Qed.

Lemma selected_notna (flag : nat) (df : DataFrame value) :
  Forall (fun lr => notna (nth flag (snd lr) VNaN) = true) (selected flag df).
Proof.
  apply Forall_forall. intros lr H. now apply filter_In in H.
Qed.

Lemma sorted_selection_perm (flag amount : nat) (df : DataFrame value) :
  Permutation (sorted_selection flag amount df) (selected flag df).
Proof. apply sort_by_perm. Qed.

Lemma sorted_selection_count (flag amount : nat) (df : DataFrame value) :
  count (map (fun lr => nth flag (snd lr) VNaN) (sorted_selection flag amount df))
  = length (selected flag df).
Proof.
  rewrite count_all_notna.
  - apply Permutation_length, sorted_selection_perm.
  - eapply Permutation_Forall; [|apply selected_notna].
    symmetry. apply sorted_selection_perm.
Qed.

Lemma sorted_selection_sum (flag amount : nat) (df : DataFrame value) :
  sum (map (fun lr => nth amount (snd lr) VNaN) (sorted_selection flag amount df))
  = sum (map (fun lr => nth amount (snd lr) VNaN) (selected flag df)).
Proof.
  apply sum_perm, Permutation_map, sorted_selection_perm.
Qed.

Lemma filter_snd {A B} (p : B -> bool) (l : list (A * B)) :
  map snd (filter (fun lr => p (snd lr)) l) = filter p (map snd l).
Proof.
  induction l as [|[a b] l IH]; simpl; [reflexivity|].
  destruct (p b); simpl; now rewrite IH.
Qed.

Lemma clean_pdf_inv (td : list cell -> list (option date))
  (df_list : list RawTable) (wb : Workbook) :
  clean_pdf td df_list = inr wb ->
  exists df t,
    raw_table df_list = inr df
    /\ clean_rows df = inr t
    /\ ten_wide t
    /\ wb = mkWorkbook (reset_index (coerce td t))
                       (sheet_of 6 7 [8; 9] (coerce td t))
                       (sheet_of 8 9 [6; 7] (coerce td t)).
Proof.
  intros H. destruct (raw_table df_list) as [e|df] eqn:Hraw.
  - rewrite (clean_pdf_inl td _ _ Hraw) in H. discriminate.
  - destruct (clean_rows df) as [e|t] eqn:Ht.
    + rewrite (clean_pdf_rows_inl td _ _ _ Hraw Ht) in H. discriminate.
    + exists df, t. rewrite (clean_pdf_inr td _ _ _ Hraw Ht) in H.
      injection H as <-.
      pose proof (clean_rows_wide _ _ (raw_table_wide _ _ Hraw) Ht) as Hw.
      destruct Hw as [Hc Hr]. repeat split; assumption.
Qed.

Lemma coerce_columns (td : list cell -> list (option date)) (raw : DataFrame cell) :
  ten_wide raw -> columns (coerce td raw) = column_names.
Proof. intros H. now rewrite (coerce_rows_eq td raw H). Qed.

(** The selected rows of the Ledger are those of the frame of line 63. *)
Lemma with_flag_ledger (df : DataFrame value) (name : string) (flag : nat) :
  columns df = column_names ->
  get_loc name column_names = flag ->
  with_flag name (reset_index df) = map snd (selected flag df).
Proof.
  intros Hc Hn. unfold with_flag, selected, field, cells_of, reset_index.
  cbn [columns rows]. rewrite renumber_snd, Hc, Hn.
  now rewrite (filter_snd (fun r => notna (nth flag r VNaN))).
Qed.

Lemma sum_skips_null (col : list value) : sum col = sum (filter notna col).
Proof.
  unfold sum. f_equal.
  induction col as [|v col IH]; [reflexivity|].
  cbn [fold_right filter]. rewrite IH.
  destruct v; reflexivity.
Qed.

Lemma sheet_split (body : list (list value)) (t : list value)
  (df : DataFrame value) :
  map snd (rows df) = body ++ [t] ->
  non_trailer df = body /\ trailer_row df = t.
Proof.
  intros H. unfold non_trailer, trailer_row, cells_of. rewrite H.
  split; [apply removelast_last | apply last_last].
Qed.

(** C4.  The last row of the Debit sheet has "TOTAL" in No., the number
    of Ledger rows with a non-null DR in DR, and the sum of the Amount_DR
    of those rows in Amount_DR; the rows before it are as many as those
    Ledger rows.  The Credit sheet is the same over CR and Amount_CR.  A
    sum leaves null cells out. *)
Theorem trailer_totals (td : list cell -> list (option date))
  (df_list : list RawTable) (wb : Workbook) :
  clean_pdf td df_list = inr wb ->
  (field VNaN "No." (Debit wb) (trailer_row (Debit wb)) = VStr "TOTAL"
   /\ field VNaN "DR" (Debit wb) (trailer_row (Debit wb))
      = VNum (Number.of_nat (length (with_flag "DR" (Cleaned wb))))
   /\ field VNaN "Amount_DR" (Debit wb) (trailer_row (Debit wb))
      = sum (map (field VNaN "Amount_DR" (Cleaned wb))
                 (with_flag "DR" (Cleaned wb)))
   /\ length (non_trailer (Debit wb)) = length (with_flag "DR" (Cleaned wb)))
  /\ (field VNaN "No." (Credit wb) (trailer_row (Credit wb)) = VStr "TOTAL"
      /\ field VNaN "CR" (Credit wb) (trailer_row (Credit wb))
         = VNum (Number.of_nat (length (with_flag "CR" (Cleaned wb))))
      /\ field VNaN "Amount_CR" (Credit wb) (trailer_row (Credit wb))
         = sum (map (field VNaN "Amount_CR" (Cleaned wb))
                    (with_flag "CR" (Cleaned wb)))
      /\ length (non_trailer (Credit wb)) = length (with_flag "CR" (Cleaned wb)))
  /\ (forall col, sum col = sum (filter notna col)).
Proof.
  intros H. destruct (clean_pdf_inv td _ _ H) as [df [t [_ [_ [Hw ->]]]]].
  cbn [Cleaned Debit Credit].
  pose proof (coerce_columns td _ Hw) as Hc.
  set (L := coerce td t) in *.
  split; [|split; [|exact sum_skips_null]].
  - destruct (debit_sheet_rows L Hc) as [Hcols Hrows].
    destruct (sheet_split _ _ _ Hrows) as [Hb Ht].
    rewrite Hb, Ht. unfold field. rewrite Hcols.
    rewrite (with_flag_ledger L "DR" 6 Hc eq_refl).
    cbn [reset_index columns]. rewrite Hc.
    change (get_loc "No." debit_columns) with 0.
    change (get_loc "DR" debit_columns) with 6.
    change (get_loc "Amount_DR" debit_columns) with 7.
    change (get_loc "Amount_DR" column_names) with 7.
    unfold trailer. cbn [nth].
    rewrite sorted_selection_count, sorted_selection_sum.
    rewrite !length_map, map_map.
    repeat split.
    apply Permutation_length, sorted_selection_perm.
  - destruct (credit_sheet_rows L Hc) as [Hcols Hrows].
    destruct (sheet_split _ _ _ Hrows) as [Hb Ht].
    rewrite Hb, Ht. unfold field. rewrite Hcols.
    rewrite (with_flag_ledger L "CR" 8 Hc eq_refl).
    cbn [reset_index columns]. rewrite Hc.
    change (get_loc "No." credit_columns) with 0.
    change (get_loc "CR" credit_columns) with 6.
    change (get_loc "Amount_CR" credit_columns) with 7.
    change (get_loc "Amount_CR" column_names) with 9.
    unfold trailer. cbn [nth].
    rewrite sorted_selection_count, sorted_selection_sum.
    rewrite !length_map, map_map.
    repeat split.
    apply Permutation_length, sorted_selection_perm.
Qed.

(** C7.  In the Debit sheet the Amount_DR of the rows before the last
    one never decreases from a row to any later row, a null Amount_DR
    counting as larger than every number; the same holds in the Credit
    sheet for Amount_CR. *)
Theorem sheets_sorted (td : list cell -> list (option date))
  (df_list : list RawTable) (wb : Workbook) :
  clean_pdf td df_list = inr wb ->
  StronglySorted key_order
    (map (fun r => as_float (field VNaN "Amount_DR" (Debit wb) r))
         (non_trailer (Debit wb)))
  /\ StronglySorted key_order
       (map (fun r => as_float (field VNaN "Amount_CR" (Credit wb) r))
            (non_trailer (Credit wb))).
Proof.
  intros H. destruct (clean_pdf_inv td _ _ H) as [df [t [_ [_ [Hw ->]]]]].
  cbn [Debit Credit].
  pose proof (coerce_columns td _ Hw) as Hc.
  set (L := coerce td t) in *.
  split.
  - destruct (debit_sheet_rows L Hc) as [Hcols Hrows].
    destruct (sheet_split _ _ _ Hrows) as [Hb _].
    rewrite Hb. unfold field. rewrite Hcols.
    change (get_loc "Amount_DR" debit_columns) with 7.
    rewrite map_map. cbn [debit_cells nth].
    apply (sort_by_keys_sorted (key_at 7)).
  - destruct (credit_sheet_rows L Hc) as [Hcols Hrows].
    destruct (sheet_split _ _ _ Hrows) as [Hb _].
    rewrite Hb. unfold field. rewrite Hcols.
    change (get_loc "Amount_CR" credit_columns) with 7.
    rewrite map_map. cbn [credit_cells nth].
    apply (sort_by_keys_sorted (key_at 9)).
Qed.

Lemma filter_none {A} (p : A -> bool) (l : list A) :
  (forall x, In x l -> p x = false) -> filter p l = [].
Proof.
  induction l as [|x l IH]; intros H; simpl; [reflexivity|].
  rewrite (H x (or_introl eq_refl)). apply IH. intros y Hy. apply H. now right.
Qed.

Lemma no_flag_no_selection (df : DataFrame value) (name : string) (flag amount : nat) :
  columns df = column_names ->
  get_loc name column_names = flag ->
  (forall r, In r (cells_of (reset_index df)) ->
             field VNaN name (reset_index df) r = VNaN) ->
  sorted_selection flag amount df = [].
Proof.
  intros Hc Hn Hall.
  assert (E : with_flag name (reset_index df) = []).
  { unfold with_flag. apply filter_none. intros r Hr. now rewrite (Hall r Hr). }
  rewrite (with_flag_ledger df name flag Hc Hn) in E.
  apply map_eq_nil in E. unfold sorted_selection. now rewrite E.
Qed.

(** C10.  When no Ledger row has a non-null DR, the Debit sheet is the
    single row with "TOTAL" in No., 0 in DR and 0 in Amount_DR; when no
    Ledger row has a non-null CR, the Credit sheet is the single row with
    "TOTAL" in No., 0 in CR and 0 in Amount_CR. *)
Theorem empty_sheet (td : list cell -> list (option date))
  (df_list : list RawTable) (wb : Workbook) :
  clean_pdf td df_list = inr wb ->
  ((forall r, In r (cells_of (Cleaned wb)) ->
              field VNaN "DR" (Cleaned wb) r = VNaN) ->
   cells_of (Debit wb) = [empty_trailer]
   /\ field VNaN "No." (Debit wb) empty_trailer = VStr "TOTAL"
   /\ field VNaN "DR" (Debit wb) empty_trailer = VNum (Number.of_nat 0)
   /\ field VNaN "Amount_DR" (Debit wb) empty_trailer = VNum (Number.of_nat 0))
  /\ ((forall r, In r (cells_of (Cleaned wb)) ->
                 field VNaN "CR" (Cleaned wb) r = VNaN) ->
      cells_of (Credit wb) = [empty_trailer]
      /\ field VNaN "No." (Credit wb) empty_trailer = VStr "TOTAL"
      /\ field VNaN "CR" (Credit wb) empty_trailer = VNum (Number.of_nat 0)
      /\ field VNaN "Amount_CR" (Credit wb) empty_trailer
         = VNum (Number.of_nat 0)).
Proof.
  intros H. destruct (clean_pdf_inv td _ _ H) as [df [t [_ [_ [Hw ->]]]]].
  cbn [Cleaned Debit Credit].
  pose proof (coerce_columns td _ Hw) as Hc.
  set (L := coerce td t) in *.
  split; intros Hall.
  - destruct (debit_sheet_rows L Hc) as [Hcols Hrows].
    unfold cells_of at 1, field. rewrite Hrows, Hcols.
    rewrite (no_flag_no_selection L "DR" 6 7 Hc eq_refl Hall).
    repeat split.
  - destruct (credit_sheet_rows L Hc) as [Hcols Hrows].
    unfold cells_of at 1, field. rewrite Hrows, Hcols.
    rewrite (no_flag_no_selection L "CR" 8 9 Hc eq_refl Hall).
    repeat split.
Qed.

Lemma trailer_totals_witness :
  field VNaN "DR" (Debit mixed_workbook) (trailer_row (Debit mixed_workbook))
  = VNum (Number.Fin (4 # 1))
  /\ field VNaN "Amount_DR" (Debit mixed_workbook)
       (trailer_row (Debit mixed_workbook))
     = VNum (Number.Fin (3201 # 2))
  /\ field VNaN "Amount_CR" (Credit mixed_workbook)
       (trailer_row (Credit mixed_workbook))
     = VNum (Number.Fin (20 # 1)).
Proof.
  destruct (trailer_totals no_dates mixed mixed_workbook eq_refl)
    as [[_ [H1 [H2 _]]] [[_ [_ [H3 _]]] _]].
  split; [exact H1 | split; [exact H2 | exact H3]].
Defined.

Lemma sheets_sorted_witness :
  StronglySorted key_order
    [Some (Number.Fin (50 # 1)); Some (Number.Fin (300 # 1));
     Some (Number.Fin (2501 # 2)); None].
Proof.
  exact (proj1 (sheets_sorted no_dates mixed mixed_workbook eq_refl)).
Defined.

Lemma empty_sheet_witness : cells_of (Credit scenario_workbook) = [empty_trailer].
Proof.
  refine (proj1 (proj2 (empty_sheet no_dates scenario scenario_workbook eq_refl) _)).
  intros r Hr. simpl in Hr. destruct Hr as [<-|[]]. reflexivity.
Defined.

(** ** Rows removed by each stage *)

Lemma filter_split_length {A} (p : A -> bool) (l : list A) :
  length (filter (fun x => negb (p x)) l) + length (filter p l) = length l.
Proof.
  induction l as [|x l IH]; simpl; [reflexivity|].
  destruct (p x); simpl; lia.
Qed.

Lemma filter_filter {A} (p q : A -> bool) (l : list A) :
  filter q (filter p l) = filter (fun x => p x && q x) l.
Proof.
  induction l as [|x l IH]; simpl; [reflexivity|].
  destruct (p x); simpl; [destruct (q x); now rewrite IH | exact IH].
Qed.

(** With or without rows, [drop_where] keeps the rows where the test
    fails. *)
Lemma drop_where_rows (f : list cell -> bool) (df : DataFrame cell) :
  rows (drop_where f df) = filter (fun lr => negb (f (snd lr))) (rows df).
Proof.
  unfold drop_where. destruct (rows df) eqn:E; [reflexivity|].
  cbn [rows select]. now rewrite E.
Qed.

Lemma drop_artifacts_length (df : DataFrame cell) :
  len (drop_artifacts df) + length (artifact_rows df) = len df.
Proof.
  unfold len, drop_artifacts, artifact_rows. rewrite drop_where_rows.
  apply (filter_split_length (fun lr => is_artifact (snd lr))).
Qed.

Lemma drop_empty_length (df : DataFrame cell) :
  len (drop_empty df) + length (empty_rows df) = len df.
Proof.
  unfold len, drop_empty, dropna_all, empty_rows. rewrite drop_where_rows.
  cbn [rows select]. rewrite filter_filter.
  rewrite <- (filter_split_length
                (fun lr => all_na (snd lr) || is_blank (snd lr)) (rows df)).
  f_equal. f_equal. apply filter_ext. intros lr. now rewrite negb_orb.
Qed.

Lemma drop_headers_length (df df' : DataFrame cell) :
  drop_headers df = inr df' ->
  len df' + length (header_rows df) = len df.
Proof.
  unfold drop_headers. destruct (columns df); [discriminate|].
  intros H. injection H as <-.
  unfold len, select, header_rows. cbn [rows].
  apply (filter_split_length (fun lr => is_header (snd lr))).
Qed.

Lemma update_nth_fst {A B} (f : A * B -> A * B) (n : nat) (l : list (A * B)) :
  (forall x, fst (f x) = fst x) ->
  map fst (update_nth n f l) = map fst l.
Proof.
  intros Hf. revert n. induction l as [|x l IH]; intros [|n]; simpl;
    try reflexivity.
  - now rewrite Hf.
  - now rewrite IH.
Qed.

Lemma iat_set_labels {A} (df : DataFrame A) (i j : nat) (v : A) :
  labels (iat_set df i j v) = labels df.
Proof.
  unfold labels, iat_set. cbn [rows]. now apply update_nth_fst.
Qed.

Lemma index_at_labels {A} (df : DataFrame A) (i : nat) :
  i < len df -> nth_error (labels df) i = Some (index_at df i).
Proof.
  unfold len, labels, index_at. intros H.
  rewrite nth_error_map.
  destruct (nth_error (rows df) i) as [[l r]|] eqn:E; [reflexivity|].
  apply nth_error_None in E. lia.
Qed.

Lemma merge_step_invariant (ls : list nat) (s : nat)
  (st : DataFrame cell * list nat) :
  NoDup ls -> s < length ls ->
  loop_invariant ls s st -> loop_invariant ls (S s) (merge_step st s).
Proof.
  intros Hnd Hs [Hl [Hd Hin]]. destruct st as [df dr]. cbn [fst snd] in *.
  unfold merge_step. destruct (is_continuation (iloc df s)).
  - assert (Hx : nth_error ls s = Some (index_at df s)).
    { rewrite <- Hl. apply index_at_labels. unfold len.
      rewrite <- (length_map fst). fold (labels df). now rewrite Hl. }
    repeat split; cbn [fst snd].
    + now rewrite iat_set_labels.
    + apply NoDup_app; repeat split; auto.
      * repeat constructor. intros [].
      * intros x Hxin [<-|[]]. destruct (Hin _ Hxin) as [i [Hi Hnth]].
        rewrite <- Hx in Hnth.
        apply (proj1 (NoDup_nth_error ls) Hnd) in Hnth; [lia|].
        apply nth_error_Some. rewrite Hnth, Hx. discriminate.
    + intros x Hxin. apply in_app_or in Hxin. destruct Hxin as [Hxin|[<-|[]]].
      * destruct (Hin _ Hxin) as [i [Hi Hnth]]. exists i. split; [lia|auto].
      * exists s. split; [lia|auto].
  - repeat split; auto. cbn [snd]. intros x Hxin.
    destruct (Hin _ Hxin) as [i [Hi Hnth]]. exists i. split; [lia|auto].
Qed.

Lemma merge_fold_invariant (ls : list nat) (c s : nat)
  (st : DataFrame cell * list nat) :
  NoDup ls -> (c = 0 \/ s + c <= length ls) ->
  loop_invariant ls s st ->
  loop_invariant ls (s + c) (fold_left merge_step (seq s c) st).
Proof.
  intros Hnd. revert s st. induction c as [|c IH]; intros s st Hc Hinv.
  - now rewrite Nat.add_0_r.
  - cbn [seq fold_left]. replace (s + S c) with (S s + c) by lia.
    apply IH; [lia|]. apply merge_step_invariant; auto. lia.
Qed.

Lemma filter_fst {A B} (p : A -> bool) (l : list (A * B)) :
  map fst (filter (fun lr => p (fst lr)) l) = filter p (map fst l).
Proof.
  induction l as [|[a b] l IH]; simpl; [reflexivity|].
  destruct (p a); simpl; now rewrite IH.
Qed.

Lemma existsb_eqb_In (x : nat) (l : list nat) :
  existsb (Nat.eqb x) l = true <-> In x l.
Proof.
  rewrite existsb_exists. split.
  - intros [y [Hy E]]. apply Nat.eqb_eq in E. now subst.
  - intros H. exists x. split; [exact H | apply Nat.eqb_refl].
Qed.

(** [drop] removes as many rows as it is given labels, when the labels
    are distinct labels of the frame and the index has no duplicate. *)
Lemma drop_length {A} (dr : list nat) (df : DataFrame A) :
  NoDup (labels df) -> NoDup dr -> incl dr (labels df) ->
  len (drop dr df) + length dr = len df.
Proof.
  intros Hnd Hdr Hincl. unfold len, drop. cbn [rows].
  rewrite <- (filter_split_length
                (fun lr => existsb (Nat.eqb (fst lr)) dr) (rows df)).
  f_equal.
  rewrite <- (length_map fst), (filter_fst (fun x => existsb (Nat.eqb x) dr)).
  fold (labels df). symmetry.
  apply Permutation_length, NoDup_Permutation; auto.
  - now apply NoDup_filter.
  - intros x. rewrite filter_In, existsb_eqb_In. split; [tauto|].
    intros H. split; auto.
Qed.

Lemma select_labels_NoDup {A} (keep : list A -> bool) (df : DataFrame A) :
  NoDup (labels df) -> NoDup (labels (select keep df)).
Proof.
  unfold labels, select. cbn [rows]. generalize (rows df) as l.
  induction l as [|[a b] l IH]; simpl; intros H; [constructor|].
  inversion H as [|? ? Hnin Hnd]; subst.
  destruct (keep b); simpl; auto. constructor; auto.
  intros Hin. apply Hnin. apply in_map_iff in Hin.
  destruct Hin as [[a' b'] [E Hin]]. apply filter_In in Hin.
  apply in_map_iff. exists (a', b'). tauto.
Qed.

Lemma renumber_labels {A} (b : list (list A)) :
  map fst (renumber b) = seq 0 (length b).
Proof.
  unfold renumber. generalize 0 as k.
  induction b as [|r b IH]; intros k; simpl; [reflexivity|]. now rewrite IH.
Qed.

Lemma raw_table_labels (df_list : list RawTable) (df : DataFrame cell) :
  raw_table df_list = inr df -> NoDup (labels df).
Proof.
  unfold raw_table. destruct (pd_concat df_list) as [e|t] eqn:Hc; [discriminate|].
  intros H. apply set_columns_inr in H. destruct H as [_ ->].
  unfold labels. cbn [rows first_columns body]. rewrite map_map. cbn [fst].
  assert (Hne : df_list <> []) by (destruct df_list; [discriminate|congruence]).
  rewrite pd_concat_inr in Hc by assumption. injection Hc as <-.
  cbn [body]. rewrite renumber_labels. apply seq_NoDup.
Qed.

Lemma fix_continuations_length (df : DataFrame cell) :
  NoDup (labels df) ->
  len (fix_continuations df) + length (continuation_labels df) = len df.
Proof.
  intros Hnd. unfold fix_continuations, continuation_labels.
  assert (Hinv : loop_invariant (labels df) (1 + (len df - 1)) (merge_loop df)).
  { apply merge_fold_invariant; auto.
    - unfold len, labels. rewrite length_map. lia.
    - repeat split; [constructor | intros x []]. }
  destruct (merge_loop df) as [df' dr]. destruct Hinv as [Hl [Hd Hin]].
  cbn [fst snd] in *.
  rewrite drop_length; auto.
  - unfold len. rewrite <- (length_map fst), <- (length_map fst (rows df)).
    fold (labels df') (labels df). now rewrite Hl.
  - now rewrite Hl.
  - rewrite Hl. intros x Hx. destruct (Hin _ Hx) as [i [_ Hi]].
    now apply nth_error_In in Hi.
Qed.

(** C6.  The rows of the Ledger, the rows with "table from page", the
    rows that are all null or all blank, the rows with "Additional" in
    the first column and the continuation rows dropped by the loop add up
    to the rows of the concatenated table cut to ten columns; each stage
    is counted on the frame the stage before it left. *)
Theorem rows_accounted (td : list cell -> list (option date))
  (df_list : list RawTable) (df df5 : DataFrame cell) (wb : Workbook) :
  raw_table df_list = inr df ->
  drop_headers (drop_empty (drop_artifacts df)) = inr df5 ->
  clean_pdf td df_list = inr wb ->
  len (Cleaned wb)
  + (length (artifact_rows df)
     + length (empty_rows (drop_artifacts df))
     + length (header_rows (drop_empty (drop_artifacts df)))
     + length (continuation_labels df5))
  = len df.
Proof.
  intros Hraw H5 Hclean.
  assert (Ht : clean_rows df = inr (fix_continuations df5)).
  { unfold clean_rows. now rewrite H5. }
  rewrite (clean_pdf_inr td _ _ _ Hraw Ht) in Hclean. injection Hclean as <-.
  cbn [Cleaned].
  pose proof (clean_rows_wide _ _ (raw_table_wide _ _ Hraw) Ht) as Hw.
  assert (Hlen : len (reset_index (coerce td (fix_continuations df5)))
                 = len (fix_continuations df5)).
  { rewrite (coerce_rows_eq td _ Hw). unfold len, reset_index. cbn [rows].
    now rewrite renumber_length, length_map, coerce_rows_length. }
  rewrite Hlen.
  pose proof (raw_table_labels _ _ Hraw) as Hnd.
  pose proof (drop_artifacts_length df) as H3.
  pose proof (drop_empty_length (drop_artifacts df)) as H4.
  pose proof (drop_headers_length _ _ H5) as H5'.
  pose proof (fix_continuations_length df5) as H6.
  assert (NoDup (labels df5)).
  { destruct (clean_rows_inr _ _ Ht) as [_ [_ [E _]]].
    rewrite H5 in E. injection E as ->.
    unfold filtered. repeat apply select_labels_NoDup. exact Hnd. }
  specialize (H6 H). lia.
Qed.

Lemma rows_accounted_witness :
  len (Cleaned scenario_workbook) + (1 + 0 + 0 + 1) = 3.
Proof.
  exact (rows_accounted no_dates scenario scenario_frame scenario_filtered
           scenario_workbook eq_refl eq_refl eq_refl).
Defined.

(** ** A second run over the cleaned rows *)

Lemma rstrip_empty (s : string) :
  Text.is_empty (Text.rstrip s) = Text.all_chars Text.is_space s.
Proof.
  induction s as [|c s IH]; [reflexivity|].
  cbn [Text.rstrip Text.all_chars]. rewrite <- IH.
  destruct (Text.rstrip s); cbn [Text.is_empty].
  - destruct (Text.is_space c); reflexivity.
  - now rewrite andb_false_r.
Qed.

Lemma lstrip_all_space (s : string) :
  Text.all_chars Text.is_space (Text.lstrip s) = Text.all_chars Text.is_space s.
Proof.
  induction s as [|c s IH]; [reflexivity|].
  cbn [Text.lstrip Text.all_chars].
  destruct (Text.is_space c) eqn:E; [exact IH|].
  cbn [Text.all_chars]. now rewrite E.
Qed.

Lemma blank_all_space (s : string) : blank s = Text.all_chars Text.is_space s.
Proof.
  unfold blank, Text.strip. now rewrite rstrip_empty, lstrip_all_space.
Qed.

Lemma all_chars_append (f : ascii -> bool) (a b : string) :
  Text.all_chars f (a ++ b) = Text.all_chars f a && Text.all_chars f b.
Proof.
  induction a as [|c a IH]; [reflexivity|].
  cbn [append Text.all_chars]. now rewrite IH, andb_assoc.
Qed.

Lemma blank_joined (a b : string) : blank b = false -> blank (a ++ " " ++ b) = false.
Proof.
  rewrite !blank_all_space, !all_chars_append. intros ->.
  now rewrite !andb_false_r.
Qed.

Lemma set_nth_twice {A} (n : nat) (x y : A) (l : list A) :
  set_nth n x (set_nth n y l) = set_nth n x l.
Proof.
  revert n. induction l as [|z l IH]; intros [|n]; simpl; auto.
  now rewrite IH.
Qed.

Lemma extended_write (r0 r : list cell) (s : string) :
  blank s = false -> extended r0 r -> extended r0 (set_nth 5 (Str s) r).
Proof.
  intros Hs [->|[s' [_ ->]]]; right; exists s; split; auto.
  apply set_nth_twice.
Qed.

Lemma update_nth_Forall2 {A B} (R : A -> B -> Prop) (f : B -> B) (n : nat)
  (l : list A) (l' : list B) :
  (forall a b, R a b -> R a (f b)) ->
  Forall2 R l l' -> Forall2 R l (update_nth n f l').
Proof.
  intros Hf H. revert n. induction H as [|a b l l' Hab Hll IH]; intros [|n];
    simpl; constructor; auto.
Qed.

Lemma nth_map_true {A} (f : A -> bool) (l : list A) (n : nat) (d : A) :
  nth n (map f l) false = true -> f (nth n l d) = true.
Proof.
  revert n. induction l as [|x l IH]; intros [|n]; simpl; try discriminate; auto.
Qed.

Lemma merge_step_same (rs : list (nat * list cell))
  (st : DataFrame cell * list nat) (i : nat) :
  Forall2 same_row rs (rows (fst st)) ->
  Forall2 same_row rs (rows (fst (merge_step st i))).
Proof.
  destruct st as [df dr]. cbn [fst]. intros H. unfold merge_step.
  destruct (is_continuation (iloc df i)) eqn:E; cbn [fst]; [|exact H].
  unfold iat_set. cbn [rows]. apply update_nth_Forall2; [|exact H].
  intros a [l r] [Hl He]. cbn [fst snd] in *. split; [exact Hl|].
  apply extended_write; [|exact He]. apply blank_joined.
  unfold is_continuation in E. apply andb_prop in E. destruct E as [_ E].
  unfold non_empty in E. apply (nth_map_true _ _ _ NaN) in E.
  now apply negb_true_iff in E.
Qed.

Lemma merge_fold_same (rs : list (nat * list cell)) (l : list nat)
  (st : DataFrame cell * list nat) :
  Forall2 same_row rs (rows (fst st)) ->
  Forall2 same_row rs (rows (fst (fold_left merge_step l st))).
Proof.
  revert st. induction l as [|i l IH]; intros st H; simpl; auto.
  apply IH. now apply merge_step_same.
Qed.

Lemma same_row_refl (rs : list (nat * list cell)) : Forall2 same_row rs rs.
Proof.
  induction rs; constructor; auto. split; [reflexivity | now left].
Qed.

Lemma Forall2_In_r {A B} (R : A -> B -> Prop) (l : list A) (l' : list B) (b : B) :
  Forall2 R l l' -> In b l' -> exists a, In a l /\ R a b.
Proof.
  induction 1 as [|x y l l' Hxy _ IH]; intros Hin; [destruct Hin|].
  destruct Hin as [<-|Hin].
  - exists x. split; [now left | exact Hxy].
  - destruct (IH Hin) as [a [Ha HR]]. exists a. split; [now right | exact HR].
Qed.

(** Every row [fix_continuations] keeps is a row of its argument, as it
    was or with a non-blank text written in column 5. *)
Lemma fix_continuations_rows (df : DataFrame cell) (lr : nat * list cell) :
  In lr (rows (fix_continuations df)) ->
  exists lr0, In lr0 (rows df) /\ same_row lr0 lr.
Proof.
  unfold fix_continuations.
  pose proof (merge_fold_same (rows df) (seq 1 (len df - 1)) (df, [])
                (same_row_refl _)) as H.
  fold (merge_loop df) in H. destruct (merge_loop df) as [df' dr].
  cbn [fst] in H. unfold drop. cbn [rows]. intros Hin.
  apply filter_In in Hin. destruct Hin as [Hin _].
  apply (Forall2_In_r _ _ _ _ H Hin).
Qed.

Lemma set_nth_other {A} (n j : nat) (x d : A) (l : list A) :
  j <> n -> nth j (set_nth n x l) d = nth j l d.
Proof.
  revert n j. induction l as [|y l IH]; intros [|n] [|j] H; simpl; auto.
  congruence.
Qed.

Lemma extended_other (r0 r : list cell) (j : nat) :
  extended r0 r -> j <> 5 -> nth j r NaN = nth j r0 NaN.
Proof.
  intros [->|[s [_ ->]]] Hj; [reflexivity|]. now apply set_nth_other.
Qed.

Lemma extended_header (r0 r : list cell) :
  extended r0 r -> is_header r = is_header r0.
Proof.
  intros H. unfold is_header. now rewrite (extended_other r0 r 0 H).
Qed.

Lemma forallb_set_nth {A} (p : A -> bool) (n : nat) (x : A) (l : list A) :
  p x = false -> forallb p l = false -> forallb p (set_nth n x l) = false.
Proof.
  intros Hx. revert n. induction l as [|y l IH]; intros [|n] H; simpl in *;
    try discriminate.
  - now rewrite Hx.
  - destruct (p y); simpl in *; auto.
Qed.

Lemma extended_all_na (r0 r : list cell) :
  extended r0 r -> all_na r0 = false -> all_na r = false.
Proof.
  intros [->|[s [_ ->]]] H; [exact H|].
  now apply forallb_set_nth.
Qed.

Lemma extended_blank (r0 r : list cell) :
  extended r0 r -> is_blank r0 = false -> is_blank r = false.
Proof.
  intros [->|[s [Hs ->]]] H; [exact H|].
  now apply forallb_set_nth.
Qed.

Lemma filter_all {A} (p : A -> bool) (l : list A) :
  (forall x, In x l -> p x = true) -> filter p l = l.
Proof.
  induction l as [|x l IH]; intros H; simpl; [reflexivity|].
  rewrite (H x (or_introl eq_refl)). f_equal. apply IH.
  intros y Hy. apply H. now right.
Qed.

Lemma existsb_nth_false {A} (p : A -> bool) (l : list A) (d : A) :
  p d = false ->
  (existsb p l = false <-> forall j, p (nth j l d) = false).
Proof.
  intros Hd. induction l as [|x l IH]; simpl.
  - split; auto. intros _ [|j]; exact Hd.
  - rewrite orb_false_iff, IH. split.
    + intros [Hx Hl] [|j]; auto.
    + intros H. split; [exact (H 0) | intros j; exact (H (S j))].
Qed.

Lemma filtered_rows (df : DataFrame cell) (lr : nat * list cell) :
  In lr (rows (filtered df)) ->
  is_artifact (snd lr) = false /\ all_na (snd lr) = false
  /\ is_blank (snd lr) = false /\ is_header (snd lr) = false.
Proof.
  unfold filtered, select.
  cbn [rows]. rewrite !filter_In, !negb_true_iff. tauto.
Qed.

(** C8 (as stated, refuted).  The Ledger of [split_marker] has one row,
    whose Additional Information is "see table from page 2"; in raw-cell
    form that row contains "table from page", and the first row filter
    removes it when the cleaner is run again. *)
Lemma rerun_removes_merged_row :
  exists df t wb,
    raw_table split_marker = inr df
    /\ clean_rows df = inr t
    /\ clean_pdf no_dates split_marker = inr wb
    /\ map (field VNaN "Additional Information" (Cleaned wb)) (cells_of (Cleaned wb))
       = [VStr "see table from page 2"]
    /\ len t = 1
    /\ len (drop_artifacts t) = 0.
Proof.
  eexists. eexists. eexists. split; [vm_compute; reflexivity|].
  split; [vm_compute; reflexivity|].
  split; [vm_compute; reflexivity|].
  repeat split; vm_compute; reflexivity.
Qed.

Lemma cleaned_rows_pass (df : DataFrame cell) (lr : nat * list cell) :
  In lr (rows (fix_continuations (filtered df))) ->
  all_na (snd lr) = false /\ is_blank (snd lr) = false
  /\ is_header (snd lr) = false
  /\ forall j, j <> 5 -> has_marker (nth j (snd lr) NaN) = false.
Proof.
  intros Hin.
  apply fix_continuations_rows in Hin. destruct Hin as [lr0 [Hin0 [_ He]]].
  apply filtered_rows in Hin0. destruct Hin0 as [Ha [Hn [Hb Hh]]].
  repeat split.
  - now apply (extended_all_na _ _ He).
  - now apply (extended_blank _ _ He).
  - now rewrite (extended_header _ _ He).
  - intros j Hj. rewrite (extended_other _ _ j He Hj).
    unfold is_artifact in Ha.
    now apply (proj1 (existsb_nth_false has_marker _ NaN eq_refl) Ha).
Qed.

Lemma filter_filter_all {A} (p q : A -> bool) (l : list A) :
  (forall x, In x l -> q x = true) -> filter q (filter p l) = filter p l.
Proof.
  intros H. apply filter_all. intros x Hx. apply filter_In in Hx.
  now apply H.
Qed.

(** C8 (amended).  Let [t] be the cleaned rows in raw-cell form, the rows
    of the Ledger before coercion.  No row of [t] is all null, all blank,
    or has "Additional" in its first column, so a second run removes
    nothing in the blank-row stage and nothing in the header-row stage.
    No cell other than Additional Information contains "table from
    page": the artifact-row stage of a second run removes exactly the rows
    whose Additional Information contains it. *)
Theorem rerun_stages (df t : DataFrame cell) :
  clean_rows df = inr t ->
  (forall lr, In lr (rows t) ->
     all_na (snd lr) = false /\ is_blank (snd lr) = false
     /\ is_header (snd lr) = false)
  /\ (forall lr j, In lr (rows t) -> j <> 5 ->
        has_marker (nth j (snd lr) NaN) = false)
  /\ (forall lr, In lr (rows t) ->
        is_artifact (snd lr) = has_marker (nth 5 (snd lr) NaN))
  /\ rows (drop_empty (drop_artifacts t)) = rows (drop_artifacts t)
  /\ (forall t5, drop_headers (drop_empty (drop_artifacts t)) = inr t5 ->
        rows t5 = rows (drop_artifacts t)).
Proof.
  intros Ht. apply clean_rows_inr in Ht. destruct Ht as [_ [_ [_ ->]]].
  pose proof (cleaned_rows_pass df) as Hrows.
  set (t := fix_continuations (filtered df)) in *.
  assert (H4 : rows (drop_empty (drop_artifacts t)) = rows (drop_artifacts t)).
  { unfold drop_empty, dropna_all, drop_artifacts.
    rewrite !drop_where_rows. cbn [rows select]. rewrite drop_where_rows.
    rewrite filter_filter_all.
    - apply filter_filter_all. intros lr Hin.
      destruct (Hrows lr Hin) as [Hn _]. now rewrite Hn.
    - intros lr Hin. apply filter_In in Hin. destruct Hin as [Hin _].
      destruct (Hrows lr Hin) as [_ [Hb _]]. now rewrite Hb. }
  split; [|split; [|split; [|split]]].
  - intros lr Hin. destruct (Hrows lr Hin) as [Hn [Hb [Hh _]]]. auto.
  - intros lr j Hin Hj. now apply (Hrows lr Hin).
  - intros lr Hin. destruct (Hrows lr Hin) as [_ [_ [_ Hj]]].
    destruct (has_marker (nth 5 (snd lr) NaN)) eqn:E5.
    + unfold is_artifact.
      destruct (existsb _ (snd lr)) eqn:Ex; [reflexivity|].
      apply (proj1 (existsb_nth_false has_marker _ NaN eq_refl)) with (j := 5) in Ex.
      congruence.
    + unfold is_artifact.
      apply (proj2 (existsb_nth_false has_marker _ NaN eq_refl)).
      intros j. destruct (Nat.eq_dec j 5) as [->|Hne]; auto.
  - exact H4.
  - intros t5 H5. unfold drop_headers in H5.
    destruct (columns (drop_empty (drop_artifacts t))); [discriminate|].
    injection H5 as <-. cbn [rows select]. rewrite H4.
    apply filter_all. intros lr Hin.
    unfold drop_artifacts in Hin. rewrite drop_where_rows in Hin.
    apply filter_In in Hin. destruct Hin as [Hin _].
    destruct (Hrows lr Hin) as [_ [_ [Hh _]]]. now rewrite Hh.
Qed.

Lemma rerun_stages_witness :
  rows (drop_empty (drop_artifacts scenario_rows))
  = rows (drop_artifacts scenario_rows)
  /\ drop_headers (drop_empty (drop_artifacts scenario_rows))
     = inr scenario_rows.
Proof.
  pose proof (rerun_stages scenario_frame scenario_rows eq_refl)
    as [_ [_ [_ [H4 H5]]]].
  split; [exact H4 | reflexivity].
Defined.

(** ** The sheets do not touch the Ledger *)

(** C9.  Deriving the two sheets (lines 66-87) from the frame [df] refers
    to changes no frame that existed before: the store afterwards is the
    store before followed by new frames, so the Ledger keeps every row,
    every field and its row order; the two sheets are new objects, distinct
    from the Ledger and from each other, and each is a function of the
    Ledger alone.  The renumbering of line 90 keeps the cells and their
    order. *)
Theorem sheets_leave_ledger (s : Store.store) (df : Store.ref) :
  df < length s ->
  let '(rd, s1) := sheet 6 7 [8; 9] df s in
  let '(rc, s2) := sheet 8 9 [6; 7] df s1 in
  (exists fresh, s2 = s ++ fresh)
  /\ (forall r, r < length s -> nth_error s2 r = nth_error s r)
  /\ nth df s2 Store.empty_frame = nth df s Store.empty_frame
  /\ (length s <= rd < length s2 /\ length s <= rc < length s2 /\ rd <> rc)
  /\ nth rd s2 Store.empty_frame
     = sheet_of 6 7 [8; 9] (nth df s Store.empty_frame)
  /\ nth rc s2 Store.empty_frame
     = sheet_of 8 9 [6; 7] (nth df s Store.empty_frame)
  /\ cells_of (reset_index (nth df s2 Store.empty_frame))
     = cells_of (nth df s Store.empty_frame).
Proof.
  intros Hdf. rewrite (sheet_run 6 7 [8; 9] df s Hdf).
  rewrite sheet_run by (rewrite length_app; lia).
  rewrite (nth_old s _ df _ Hdf).
  set (d := nth df s Store.empty_frame).
  set (o1 := sheet_objects 6 7 [8; 9] d).
  set (o2 := sheet_objects 8 9 [6; 7] d).
  assert (L1 : length o1 = 6) by reflexivity.
  assert (L2 : length o2 = 6) by reflexivity.
  assert (Hold : nth df ((s ++ o1) ++ o2) Store.empty_frame = d).
  { rewrite <- app_assoc. now apply nth_old. }
  split; [exists (o1 ++ o2); now rewrite app_assoc|].
  split; [intros r Hr; rewrite <- app_assoc; now apply nth_error_app1|].
  split; [exact Hold|].
  split; [rewrite !length_app; lia|].
  split; [|split].
  - rewrite (nth_old (s ++ o1) o2) by (rewrite length_app; lia).
    rewrite app_nth2 by lia.
    replace (length s + 5 - length s) with 5 by lia. reflexivity.
  - rewrite app_nth2 by (rewrite length_app; lia).
    rewrite length_app.
    replace (length s + length o1 + 5 - (length s + length o1)) with 5 by lia.
    reflexivity.
  - rewrite Hold. unfold cells_of, reset_index. cbn [rows].
    apply renumber_snd.
Qed.

Lemma sheets_leave_ledger_witness :
  nth 0 (snd (sheet 8 9 [6; 7] 0
                (snd (sheet 6 7 [8; 9] 0 [Cleaned mixed_workbook]))))
      Store.empty_frame
  = Cleaned mixed_workbook.
Proof.
  pose proof (sheets_leave_ledger [Cleaned mixed_workbook] 0 (Nat.lt_0_succ 0))
    as H.
  destruct (sheet 6 7 [8; 9] 0 [Cleaned mixed_workbook]) as [rd s1].
  cbn [snd]. destruct (sheet 8 9 [6; 7] 0 s1) as [rc s2].
  exact (proj1 (proj2 (proj2 H))).
Defined.


(** * Further properties of the code *)

(** ** The continuation loop is a single pass *)

Lemma update_nth_middle {A} (f : A -> A) (l : list A) (a : A) (r : list A) :
  update_nth (length l) f (l ++ a :: r) = l ++ f a :: r.
Proof.
  induction l as [|x l IH]; simpl; [reflexivity|]. now rewrite IH.
Qed.

Lemma nth_error_middle {A} (l : list A) (a : A) (r : list A) :
  nth_error (l ++ a :: r) (length l) = Some a.
Proof.
  induction l as [|x l IH]; simpl; auto.
Qed.

Lemma merge_fold_absorbed (cols : list string) (rest done : list (nat * list cell))
  (a : nat * list cell) (dr : list nat) :
  fold_left merge_step (seq (S (length done)) (length rest))
    (mkDF cols (done ++ a :: rest), dr)
  = (mkDF cols (done ++ absorbed (a :: rest)),
     dr ++ map fst (filter (fun lr => is_continuation (snd lr)) rest)).
Proof.
  revert done a dr. induction rest as [|b rest IH]; intros done a dr.
  - cbn. now rewrite app_nil_r.
  - cbn [length seq fold_left].
    assert (Hb : nth_error (done ++ a :: b :: rest) (S (length done)) = Some b).
    { replace (done ++ a :: b :: rest) with ((done ++ [a]) ++ b :: rest)
        by (rewrite <- app_assoc; reflexivity).
      replace (S (length done)) with (length (done ++ [a]))
        by (rewrite length_app; simpl; lia).
      apply nth_error_middle. }
    unfold merge_step at 2. unfold iloc, index_at. cbn [rows].
    rewrite Hb. replace (S (length done) - 1) with (length done) by lia.
    rewrite nth_error_middle.
    destruct b as [lb rb]. destruct a as [la ra]. cbn [fst snd].
    destruct (is_continuation rb) eqn:E.
    + unfold iat_set. cbn [columns rows]. rewrite update_nth_middle.
      cbn [fst snd].
      replace (done ++ (la, set_nth 5 (Str (astype_str (nth 5 ra NaN) ++ " "
                 ++ astype_str (nth 5 rb NaN))) ra) :: (lb, rb) :: rest)
        with ((done ++ [(la, set_nth 5 (joined ra rb) ra)]) ++ (lb, rb) :: rest)
        by (rewrite <- app_assoc; reflexivity).
      replace (S (S (length done)))
        with (S (length (done ++ [(la, set_nth 5 (joined ra rb) ra)])))
        by (rewrite length_app; simpl; lia).
      rewrite IH. cbn [absorbed absorb hd_error filter map fst snd].
      rewrite E. cbn [map fst]. rewrite <- !app_assoc. reflexivity.
    + replace (done ++ (la, ra) :: (lb, rb) :: rest)
        with ((done ++ [(la, ra)]) ++ (lb, rb) :: rest)
        by (rewrite <- app_assoc; reflexivity).
      replace (S (S (length done)))
        with (S (length (done ++ [(la, ra)])))
        by (rewrite length_app; simpl; lia).
      rewrite IH. cbn [absorbed absorb hd_error filter map fst snd].
      rewrite E. rewrite <- !app_assoc. reflexivity.
Qed.

Lemma merge_loop_absorbed (df : DataFrame cell) :
  merge_loop df
  = (mkDF (columns df) (absorbed (rows df)),
     map fst (filter (fun lr => is_continuation (snd lr)) (tl (rows df)))).
Proof.
  unfold merge_loop, len. destruct df as [cols [|a rest]]; cbn [rows columns].
  - reflexivity.
  - cbn [length tl]. replace (S (length rest) - 1) with (length rest) by lia.
    apply (merge_fold_absorbed cols rest [] a []).
Qed.

Lemma absorb_fst (a : nat * list cell) (next : option (nat * list cell)) :
  fst (absorb a next) = fst a.
Proof.
  destruct next as [b|]; simpl; [|reflexivity].
  destruct (is_continuation (snd b)); reflexivity.
Qed.

Lemma existsb_eqb_app (x : nat) (l m : list nat) :
  existsb (Nat.eqb x) (l ++ m) = existsb (Nat.eqb x) l || existsb (Nat.eqb x) m.
Proof. apply existsb_app. Qed.

Lemma not_in_existsb (x : nat) (l : list nat) :
  ~ In x l -> existsb (Nat.eqb x) l = false.
Proof.
  intros H. destruct (existsb (Nat.eqb x) l) eqn:E; [|reflexivity].
  apply existsb_eqb_In in E. contradiction.
Qed.

Lemma filter_labels_incl (p : nat * list cell -> bool) (rs : list (nat * list cell))
  (x : nat) :
  In x (map fst (filter p rs)) -> In x (map fst rs).
Proof.
  intros H. apply in_map_iff in H. destruct H as [lr [<- H]].
  apply filter_In in H. apply in_map. tauto.
Qed.

Lemma drop_absorbed (rest : list (nat * list cell)) (d0 : list nat) :
  NoDup (map fst rest) ->
  (forall x, In x d0 -> ~ In x (map fst rest)) ->
  filter (fun lr => negb (existsb (Nat.eqb (fst lr))
            (d0 ++ map fst (filter (fun lr => is_continuation (snd lr)) rest))))
         (absorbed rest)
  = keep_tail rest.
Proof.
  revert d0. induction rest as [|b rest IH]; intros d0 Hnd Hd0; [reflexivity|].
  cbn [map] in Hnd. inversion Hnd as [|? ? Hb Hnd']; subst.
  cbn [absorbed keep_tail filter]. rewrite absorb_fst.
  destruct (is_continuation (snd b)) eqn:E; cbn [map].
  - rewrite existsb_eqb_app. cbn [existsb]. rewrite Nat.eqb_refl.
    cbn [orb]. rewrite orb_true_r. cbn [negb].
    replace (d0 ++ fst b :: map fst (filter (fun lr => is_continuation (snd lr)) rest))
      with ((d0 ++ [fst b]) ++ map fst (filter (fun lr => is_continuation (snd lr)) rest))
      by (rewrite <- app_assoc; reflexivity).
    apply IH; [exact Hnd'|].
    intros x Hx. apply in_app_or in Hx. destruct Hx as [Hx|[<-|[]]].
    + intros Hin. apply (Hd0 x Hx). now right.
    + exact Hb.
  - rewrite existsb_eqb_app.
    rewrite (not_in_existsb (fst b) d0).
    2:{ intros Hin. apply (Hd0 _ Hin). now left. }
    rewrite (not_in_existsb (fst b)).
    2:{ intros Hin. apply Hb. eapply filter_labels_incl. exact Hin. }
    cbn [orb negb]. f_equal. apply IH; [exact Hnd'|].
    intros x Hx Hin. apply (Hd0 x Hx). now right.
Qed.

Lemma single_pass_rows (df : DataFrame cell) :
  NoDup (labels df) ->
  rows (fix_continuations df) = single_pass (rows df).
Proof.
  intros Hnd. unfold fix_continuations. rewrite merge_loop_absorbed.
  unfold drop. cbn [columns rows].
  destruct df as [cols [|a rest]]; cbn [rows tl]; [reflexivity|].
  unfold labels in Hnd. cbn [rows map] in Hnd.
  inversion Hnd as [|? ? Ha Hnd']; subst.
  cbn [absorbed single_pass filter]. rewrite absorb_fst.
  rewrite (not_in_existsb (fst a)).
  2:{ intros Hin. apply Ha. eapply filter_labels_incl. exact Hin. }
  cbn [negb]. f_equal.
  apply (drop_absorbed rest [] Hnd'). intros x [].
Qed.

Lemma fix_continuations_columns (df : DataFrame cell) :
  columns (fix_continuations df) = columns df.
Proof.
  unfold fix_continuations. now rewrite merge_loop_absorbed.
Qed.

(** X1.  When the index has no duplicate label, the loop of lines 49-54
    followed by the drop of line 55 is one pass over the rows: the first
    row stays; a later row goes exactly when it is a continuation row;
    a row that stays, and has a continuation row right below it, gets
    that row's text appended after a space; nothing else changes. *)
Theorem fix_continuations_single_pass (df : DataFrame cell) :
  NoDup (labels df) ->
  fix_continuations df = mkDF (columns df) (single_pass (rows df)).
Proof.
  intros Hnd.
  pose proof (single_pass_rows df Hnd) as Hrows.
  pose proof (fix_continuations_columns df) as Hcols.
  destruct (fix_continuations df) as [cols rs]. cbn [columns rows] in *.
  now rewrite Hrows, Hcols.
Qed.

Lemma fix_continuations_single_pass_witness :
  rows (fix_continuations scenario_filtered) = single_pass (rows scenario_filtered).
Proof.
  assert (Hnd : NoDup (labels scenario_filtered)).
  { repeat constructor; simpl; intuition discriminate. }
  now rewrite (fix_continuations_single_pass scenario_filtered Hnd).
Defined.

Lemma keep_tail_kept (p post : list (nat * list cell)) (a b : nat * list cell) :
  is_continuation (snd a) = false ->
  In (absorb a (Some b)) (keep_tail (p ++ a :: b :: post)).
Proof.
  intros Ha. induction p as [|x p IH]; cbn [app keep_tail].
  - rewrite Ha. cbn [hd_error]. now left.
  - destruct (is_continuation (snd x)); [exact IH | now right].
Qed.

Lemma drop_labels {A} (dr : list nat) (df : DataFrame A) (l : nat) :
  In l (labels (drop dr df)) -> ~ In l dr.
Proof.
  unfold labels, drop. cbn [rows]. intros H Hdr.
  apply in_map_iff in H. destruct H as [lr [<- H]].
  apply filter_In in H. destruct H as [_ H].
  apply negb_true_iff in H.
  now rewrite (proj2 (existsb_eqb_In (fst lr) dr) Hdr) in H.
Qed.

(** X2.  A continuation row right below a row that stays (the first row,
    or a row that is not a continuation row) is removed, and the row
    above it is kept with its Additional Information followed by a space
    and the text of the continuation row. *)
Theorem continuation_merged (df : DataFrame cell)
  (pre post : list (nat * list cell)) (a b : nat * list cell) :
  NoDup (labels df) ->
  rows df = pre ++ a :: b :: post ->
  is_continuation (snd b) = true ->
  pre = [] \/ is_continuation (snd a) = false ->
  In (fst a, set_nth 5 (joined (snd a) (snd b)) (snd a))
     (rows (fix_continuations df))
  /\ ~ In (fst b) (labels (fix_continuations df)).
Proof.
  intros Hnd Hrows Hb Ha. split.
  - rewrite (single_pass_rows df Hnd). rewrite Hrows.
    assert (E : absorb a (Some b)
                = (fst a, set_nth 5 (joined (snd a) (snd b)) (snd a))).
    { unfold absorb. now rewrite Hb. }
    rewrite <- E. destruct pre as [|x p].
    + cbn [app single_pass hd_error]. now left.
    + destruct Ha as [Ha|Ha]; [discriminate|].
      cbn [app single_pass]. right. now apply keep_tail_kept.
  - unfold fix_continuations. rewrite merge_loop_absorbed.
    intros Hin. apply drop_labels in Hin. apply Hin.
    rewrite Hrows. apply in_map_iff. exists b. split; [reflexivity|].
    apply filter_In. split; [|exact Hb].
    destruct pre as [|x p]; cbn [app tl]; [now left|].
    apply in_or_app. right. right. now left.
Qed.

Lemma continuation_merged_witness :
  In (0, [Str "1"; Str "01/02/2024"; Str "100"; Str "REF1"; Str "Acme";
          Str "Payment note continued"; Str "1"; Str "50.00"; Str ""; Str ""])
     (rows (fix_continuations scenario_filtered))
  /\ ~ In 1 (labels (fix_continuations scenario_filtered)).
Proof.
  assert (Hnd : NoDup (labels scenario_filtered)).
  { repeat constructor; simpl; intuition discriminate. }
  exact (continuation_merged scenario_filtered [] []
           (0, [Str "1"; Str "01/02/2024"; Str "100"; Str "REF1"; Str "Acme";
                Str "Payment"; Str "1"; Str "50.00"; Str ""; Str ""])
           (1, [Str ""; Str ""; Str ""; Str ""; Str "";
                Str "note continued"; Str ""; Str ""; Str ""; Str ""])
           Hnd eq_refl eq_refl (or_introl eq_refl)).
Defined.

Lemma hd_error_app_cons {A} (p r r' : list A) (a : A) :
  hd_error (p ++ a :: r) = hd_error (p ++ a :: r').
Proof. destruct p; reflexivity. Qed.

Lemma keep_tail_below (p r r' : list (nat * list cell)) (a : nat * list cell) :
  keep_tail (a :: r) = keep_tail (a :: r') ->
  keep_tail (p ++ a :: r) = keep_tail (p ++ a :: r').
Proof.
  intros H. induction p as [|x p IH]; [exact H|].
  cbn [app keep_tail]. rewrite IH, (hd_error_app_cons p r r' a). reflexivity.
Qed.

(** X3.  A continuation row right below another continuation row that
    is not the first row has no effect on the result beyond its own
    removal: with any other continuation row under the same label in its
    place, line 55 leaves the same frame.  Its text reaches no row that
    is kept. *)
Theorem second_continuation_ignored (cols : list string)
  (pre post : list (nat * list cell)) (a b b' : nat * list cell) :
  NoDup (map fst (pre ++ a :: b :: post)) ->
  pre <> [] ->
  is_continuation (snd a) = true ->
  is_continuation (snd b) = true ->
  is_continuation (snd b') = true ->
  fst b' = fst b ->
  fix_continuations (mkDF cols (pre ++ a :: b' :: post))
  = fix_continuations (mkDF cols (pre ++ a :: b :: post)).
Proof.
  intros Hnd Hpre Ha Hb Hb' Hl.
  assert (Hnd' : NoDup (map fst (pre ++ a :: b' :: post))).
  { rewrite map_app in *. cbn [map] in *. now rewrite Hl. }
  assert (E : forall d d' : DataFrame cell,
             columns d = columns d' -> rows d = rows d' -> d = d').
  { intros [c1 r1] [c2 r2]. cbn [columns rows]. now intros -> ->. }
  apply E; [now rewrite !fix_continuations_columns|].
  rewrite (single_pass_rows (mkDF cols (pre ++ a :: b :: post)) Hnd).
  rewrite (single_pass_rows (mkDF cols (pre ++ a :: b' :: post)) Hnd').
  cbn [rows].
  destruct pre as [|x p]; [congruence|]. cbn [app single_pass].
  rewrite (hd_error_app_cons p (b' :: post) (b :: post) a). f_equal.
  apply keep_tail_below. cbn [keep_tail]. now rewrite Ha, Hb, Hb'.
Qed.

Lemma second_continuation_ignored_witness :
  fix_continuations
    (mkDF column_names ([payment_row] ++ note_row 1 "note A" :: note_row 2 "other" :: []))
  = fix_continuations
      (mkDF column_names ([payment_row] ++ note_row 1 "note A" :: note_row 2 "note B" :: [])).
Proof.
  apply second_continuation_ignored; try reflexivity; try discriminate.
  repeat constructor; simpl; intuition discriminate.
Defined.

(** ** The test for a continuation row *)

Lemma count_true_one (l : list bool) (i : nat) :
  count_true l = 1 /\ nth i l false = true
  <-> forall j, nth j l false = Nat.eqb j i.
Proof.
  unfold count_true. revert i. induction l as [|b l IH]; intros i.
  - split.
    + intros [H _]. discriminate H.
    + intros H. specialize (H i). rewrite Nat.eqb_refl in H.
      destruct i; discriminate H.
  - destruct b; cbn [filter length].
    + split.
      * intros [Hc Hi]. injection Hc as Hc.
        assert (Hall : forall j, nth j l false = false).
        { intros j. destruct (nth j l false) eqn:E; [|reflexivity].
          assert (Hin : In true (filter (fun b => b) l)).
          { apply filter_In. split; [|reflexivity].
            rewrite <- E. apply nth_In.
            destruct (Nat.lt_ge_cases j (length l)) as [Hlt|Hge]; [exact Hlt|].
            rewrite nth_overflow in E by exact Hge. discriminate. }
          destruct (filter (fun b => b) l); [destruct Hin | discriminate Hc]. }
        destruct i as [|i]; [|cbn in Hi; rewrite Hall in Hi; discriminate].
        intros [|j]; [reflexivity | apply Hall].
      * intros H. pose proof (H 0) as H0. cbn in H0.
        destruct i as [|i]; [|discriminate H0].
        split; [|reflexivity]. f_equal.
        assert (E : filter (fun b => b) l = []).
        { apply filter_none. intros x Hx.
          destruct (In_nth l x false Hx) as [j [_ Hj]].
          specialize (H (S j)). cbn in H. now rewrite <- Hj, H. }
        now rewrite E.
    + split.
      * intros [Hc Hi]. destruct i as [|i]; [discriminate Hi|].
        cbn in Hi. pose proof (proj1 (IH i) (conj Hc Hi)) as H.
        intros [|j]; [reflexivity | apply H].
      * intros H. destruct i as [|i].
        { specialize (H 0). discriminate H. }
        apply (IH i). intros j. apply (H (S j)).
Qed.

(** X4.  Line 52 takes a row for a continuation row exactly when it has
    an Additional Information cell that is not blank and every other
    cell is blank text.  A missing value is never blank: as text it is
    "nan". *)
Theorem continuation_test (row : list cell) :
  (is_continuation row = true
   <-> (5 < length row
        /\ blank (astype_str (nth 5 row NaN)) = false
        /\ forall j, j < length row -> j <> 5 ->
             exists s, nth j row NaN = Str s /\ blank s = true))
  /\ blank (astype_str NaN) = false.
Proof.
  split; [|reflexivity].
  unfold is_continuation. rewrite andb_true_iff, Nat.eqb_eq, count_true_one.
  unfold non_empty. split.
  - intros H.
    assert (H5 : 5 < length row).
    { destruct (Nat.lt_ge_cases 5 (length row)) as [Hlt|Hge]; [exact Hlt|].
      specialize (H 5). rewrite nth_overflow in H; [discriminate H|].
      now rewrite length_map. }
    split; [exact H5|]. split.
    + specialize (H 5). cbn [Nat.eqb] in H.
      apply (nth_map_true _ _ _ NaN) in H. now apply negb_true_iff in H.
    + intros j Hj Hne. specialize (H j).
      apply Nat.eqb_neq in Hne. rewrite Hne in H.
      rewrite (nth_indep _ false (negb (Text.is_empty (Text.strip (astype_str NaN)))))
        in H by (now rewrite length_map).
      rewrite (map_nth (fun c => negb (Text.is_empty (Text.strip (astype_str c)))))
        in H.
      apply negb_false_iff in H.
      destruct (nth j row NaN) as [|s]; [discriminate H|].
      exists s. split; [reflexivity | exact H].
  - intros [H5 [Hb Hall]] j.
    destruct (Nat.lt_ge_cases j (length row)) as [Hlt|Hge].
    + rewrite (nth_indep _ false (negb (Text.is_empty (Text.strip (astype_str NaN)))))
        by (now rewrite length_map).
      rewrite (map_nth (fun c => negb (Text.is_empty (Text.strip (astype_str c))))).
      destruct (Nat.eqb_spec j 5) as [->|Hne].
      * unfold blank in Hb. now rewrite Hb.
      * destruct (Hall j Hlt Hne) as [s [-> Hs]]. unfold blank in Hs.
        cbn [astype_str]. now rewrite Hs.
    + rewrite nth_overflow by (now rewrite length_map).
      symmetry. apply Nat.eqb_neq. lia.
Qed.

(** ** What the row filters of lines 38-42 look for *)

Lemma starts_with_ci_spec (pat s : string) :
  Text.starts_with_ci pat s = true
  <-> exists mid post,
        s = (mid ++ post)%string /\ Number.lower_string mid = Number.lower_string pat.
Proof.
  revert s. induction pat as [|p pat IH]; intros s.
  - split; [|reflexivity]. intros _. exists "", s. split; reflexivity.
  - destruct s as [|c s]; cbn [Text.starts_with_ci].
    + split; [discriminate|]. intros [mid [post [E H]]].
      destruct mid; [discriminate H | discriminate E].
    + rewrite andb_true_iff, Ascii.eqb_eq, IH. split.
      * intros [Hc [mid [post [-> H]]]]. exists (String c mid), post.
        split; [reflexivity|]. cbn [Number.lower_string]. now rewrite H, Hc.
      * intros [mid [post [E H]]]. destruct mid as [|c' mid]; [discriminate H|].
        cbn [append] in E. injection E as -> ->.
        cbn [Number.lower_string] in H. injection H as Hc H.
        split; [now symmetry | now exists mid, post].
Qed.

Lemma contains_ci_spec (pat s : string) :
  Text.contains_ci pat s = true
  <-> exists pre mid post,
        s = (pre ++ mid ++ post)%string
        /\ Number.lower_string mid = Number.lower_string pat.
Proof.
  induction s as [|c s IH].
  - cbn [Text.contains_ci]. rewrite orb_false_r, starts_with_ci_spec. split.
    + intros [mid [post [E H]]]. now exists "", mid, post.
    + intros [pre [mid [post [E H]]]]. destruct pre; [|discriminate E].
      now exists mid, post.
  - cbn [Text.contains_ci]. rewrite orb_true_iff, starts_with_ci_spec, IH. split.
    + intros [[mid [post [E H]]]|[pre [mid [post [E H]]]]].
      * now exists "", mid, post.
      * exists (String c pre), mid, post. cbn [append]. now rewrite E.
    + intros [pre [mid [post [E H]]]]. destruct pre as [|c' pre].
      * left. now exists mid, post.
      * right. cbn [append] in E. injection E as _ E. now exists pre, mid, post.
Qed.

(** X5.  Line 38 keeps a row exactly when no cell of it, read as text,
    has "table from page" in it, in any letter case. *)
Theorem artifact_rows_removed (df : DataFrame cell) (lr : nat * list cell) :
  In lr (rows (drop_artifacts df))
  <-> In lr (rows df)
      /\ forall c, In c (snd lr) -> ~ occurs_in "table from page" (astype_str c).
Proof.
  unfold drop_artifacts. rewrite drop_where_rows, filter_In, negb_true_iff.
  unfold is_artifact. split; intros [Hin H]; split; auto.
  - intros c Hc Hocc. apply contains_ci_spec in Hocc.
    assert (E : existsb (fun c => Text.contains_ci "table from page" (astype_str c))
                        (snd lr) = true).
    { apply existsb_exists. now exists c. }
    congruence.
  - destruct (existsb _ (snd lr)) eqn:E; [|reflexivity].
    apply existsb_exists in E. destruct E as [c [Hc E]].
    apply contains_ci_spec in E. now destruct (H c Hc).
Qed.

Lemma forallb_false {A} (f : A -> bool) (l : list A) :
  forallb f l = false <-> exists x, In x l /\ f x = false.
Proof.
  induction l as [|y l IH]; simpl.
  - split; [discriminate | intros [x [[] _]]].
  - rewrite andb_false_iff, IH. split.
    + intros [H|[x [Hx H]]]; [exists y | exists x]; auto.
    + intros [x [[<-|Hx] H]]; [now left | right; now exists x].
Qed.

(** X6.  Lines 41-42 remove a row exactly when all its cells are missing
    or all its cells are text made of whitespace only.  A row that has
    both missing cells and empty text, as a row of a narrower table has,
    is kept. *)
Theorem empty_rows_removed (df : DataFrame cell) (lr : nat * list cell) :
  In lr (rows (drop_empty df))
  <-> In lr (rows df)
      /\ (exists c, In c (snd lr) /\ c <> NaN)
      /\ (exists c, In c (snd lr)
            /\ (c = NaN
                \/ exists s, c = Str s
                     /\ Text.all_chars Text.is_space s = false)).
Proof.
  unfold drop_empty, dropna_all. rewrite drop_where_rows. cbn [rows select].
  rewrite !filter_In, !negb_true_iff. unfold all_na, is_blank.
  rewrite !forallb_false. split.
  - intros [[Hin [c [Hc Hna]]] [c' [Hc' Hb]]]. split; [exact Hin|]. split.
    + exists c. split; [exact Hc|]. destruct c; [discriminate Hna | discriminate].
    + exists c'. split; [exact Hc'|]. destruct c' as [|s]; [now left|].
      right. exists s. split; [reflexivity|].
      cbn [astype_str] in Hb. fold (blank s) in Hb.
      now rewrite blank_all_space in Hb.
  - intros [Hin [[c [Hc Hne]] [c' [Hc' H]]]]. split; [split; [exact Hin|]|].
    + exists c. split; [exact Hc|]. destruct c; [congruence | reflexivity].
    + exists c'. split; [exact Hc'|]. destruct H as [->|[s [-> Hs]]].
      * reflexivity.
      * cbn [astype_str]. fold (blank s). now rewrite blank_all_space.
Qed.

(** ** Lines 17-35 on the extracted rows *)

Lemma reindex_raw_pad (w : nat) (r : list string) :
  length r <= w -> reindex_raw w r = map Str r ++ repeat NaN (w - length r).
Proof.
  unfold reindex_raw. revert w. induction r as [|x r IH]; intros w Hw.
  - cbn [length map app]. rewrite Nat.sub_0_r. clear Hw.
    generalize 0 as k. induction w as [|w IHw]; intros k; [reflexivity|].
    cbn [seq map repeat]. rewrite IHw. now destruct k.
  - destruct w as [|w]; [cbn in Hw; lia|].
    cbn [seq map nth_error length app].
    rewrite <- seq_shift, map_map. cbn [nth_error].
    rewrite IH by (cbn in Hw; lia). reflexivity.
Qed.

Lemma ncols_le_width (df_list : list RawTable) (tb : RawTable) :
  In tb df_list -> ncols tb <= concat_width df_list.
Proof.
  unfold concat_width. induction df_list as [|t l IH]; intros H; [destruct H|].
  cbn [map fold_right]. destruct H as [->|H]; [lia|].
  specialize (IH H). lia.
Qed.

(** X7.  When every extracted table is rectangular, the frame of line 35
    holds every extracted row, in the order of the tables and of the
    rows in each table: the cells of the row, then missing values if
    its table is narrower than the widest one, all cut to ten cells.
    The index counts the rows from 0. *)
Theorem raw_table_rows (df_list : list RawTable) (df : DataFrame cell) :
  (forall tb r, In tb df_list -> In r (cells tb) -> length r = ncols tb) ->
  raw_table df_list = inr df ->
  columns df = column_names
  /\ labels df = seq 0 (len df)
  /\ cells_of df
     = map (padded 10 (concat_width df_list)) (concat (map cells df_list)).
Proof.
  intros Hrect H. unfold raw_table in H.
  destruct (pd_concat df_list) as [e|t] eqn:Hc; [discriminate|].
  apply set_columns_inr in H. destruct H as [_ ->].
  assert (Hne : df_list <> []) by (destruct df_list; [discriminate|congruence]).
  rewrite pd_concat_inr in Hc by assumption. injection Hc as <-.
  split; [reflexivity|]. unfold labels, cells_of, len.
  cbn [rows first_columns body]. rewrite !map_map, length_map. cbn [fst snd].
  split.
  - rewrite renumber_labels. now rewrite renumber_length.
  - rewrite <- (map_map snd (firstn 10)). rewrite renumber_snd.
    set (w := concat_width df_list).
    assert (Hw : forall tb, In tb df_list -> ncols tb <= w)
      by (intros tb; apply ncols_le_width).
    clearbody w. clear Hne.
    induction df_list as [|tb l IH]; [reflexivity|].
    cbn [flat_map map concat]. rewrite !map_app. f_equal.
    + rewrite map_map. apply map_ext_in. intros r Hr. unfold padded.
      rewrite reindex_raw_pad; [reflexivity|].
      rewrite (Hrect tb r (or_introl eq_refl) Hr). apply Hw. now left.
    + apply IH.
      * intros tb' r Htb. apply Hrect. now right.
      * intros tb' Htb. apply Hw. now right.
Qed.

Lemma raw_table_rows_witness :
  cells_of scenario_frame = map (padded 10 10) (concat (map cells scenario))
  /\ labels scenario_frame = [0; 1; 2].
Proof.
  assert (Hrect : forall tb r, In tb scenario -> In r (cells tb) ->
                               length r = ncols tb).
  { intros tb r [<-|[]] Hr. simpl in Hr.
    destruct Hr as [<-|[<-|[<-|[]]]]; reflexivity. }
  destruct (raw_table_rows scenario scenario_frame Hrect eq_refl)
    as [_ [Hl Hc]].
  split; [exact Hc | exact Hl].
Defined.

(** ** When [clean_pdf] fails *)


(** X8.  [clean_pdf] fails with "No objects to concatenate" exactly when
    it is given no table. *)
Theorem no_tables (td : list cell -> list (option date))
  (df_list : list RawTable) :
  clean_pdf td df_list = inl NoObjectsToConcatenate <-> df_list = [].
Proof.
  split.
  - intros H. destruct df_list as [|tb l]; [reflexivity|]. exfalso.
    destruct (raw_table (tb :: l)) as [e|df] eqn:Hr.
    + rewrite (clean_pdf_inl td _ _ Hr) in H. injection H as ->.
      unfold raw_table in Hr. rewrite pd_concat_inr in Hr by discriminate.
      unfold set_columns in Hr.
      destruct (Nat.eqb _ _) in Hr; discriminate Hr.
    + destruct (clean_rows df) as [e|t] eqn:Ht.
      * rewrite (clean_pdf_rows_inl td _ _ _ Hr Ht) in H.
        rewrite (clean_rows_inl _ _ Ht) in H. discriminate H.
      * rewrite (clean_pdf_inr td _ _ _ Hr Ht) in H. discriminate H.
  - intros ->. reflexivity.
Qed.



(** ** The Ledger *)

Lemma coerce_row_typed (dv : value) (r : list cell) :
  length r = 10 -> date_or_null dv = true -> ledger_typed (coerce_row dv r) = true.
Proof.
  intros Hlen Hdv.
  do 10 (destruct r as [|? r]; [discriminate Hlen|]).
  destruct r; [|discriminate Hlen].
  assert (Hn : forall c, number_or_null (coerce_cell c) = true).
  { intros x. unfold coerce_cell. now destruct (to_numeric _). }
  assert (Ht : forall x, text_or_null (of_cell x) = true) by (now intros []).
  cbn [coerce_row ledger_typed]. now rewrite !Hn, !Ht, Hdv.
Qed.

Lemma coerce_rows_typed (rs : list (nat * list cell)) (l : list (option date)) :
  Forall (fun lr => length (snd lr) = 10) rs ->
  Forall (fun r => ledger_typed r = true)
         (map snd (coerce_rows rs (map date_value l))).
Proof.
  intros H. revert l. induction H as [|lr rs Hlen _ IH]; intros l; [constructor|].
  cbn [coerce_rows map snd]. constructor.
  - apply coerce_row_typed; [exact Hlen|].
    destruct l as [|[d|] l]; reflexivity.
  - replace (tl (map date_value l)) with (map date_value (tl l))
      by (destruct l; reflexivity).
    apply IH.
Qed.

(** X10.  The Ledger has the ten named columns, its index counts the rows
    from 0 without a gap, and every row has ten cells: No., Tran Type, DR,
    Amount_DR, CR and Amount_CR hold a number or null, Value Date a date
    or null, Tran Ref, Participant and Additional Information text or
    null. *)
Theorem ledger_shape (td : list cell -> list (option date))
  (df_list : list RawTable) (wb : Workbook) :
  clean_pdf td df_list = inr wb ->
  columns (Cleaned wb) = column_names
  /\ labels (Cleaned wb) = seq 0 (len (Cleaned wb))
  /\ Forall (fun r => ledger_typed r = true) (cells_of (Cleaned wb)).
Proof.
  intros H. destruct (clean_pdf_inv td _ _ H) as [df [t [_ [_ [Hw ->]]]]].
  cbn [Cleaned]. rewrite (coerce_rows_eq td _ Hw).
  unfold labels, cells_of, len, reset_index. cbn [columns rows].
  split; [reflexivity|]. split.
  - now rewrite renumber_labels, renumber_length.
  - rewrite renumber_snd. apply coerce_rows_typed. now destruct Hw.
Qed.

Lemma ledger_shape_witness :
  Forall (fun r => ledger_typed r = true) (cells_of (Cleaned mixed_workbook))
  /\ labels (Cleaned mixed_workbook) = [0; 1; 2; 3; 4].
Proof.
  destruct (ledger_shape no_dates mixed mixed_workbook eq_refl) as [_ [Hl Ht]].
  split; [exact Ht | exact Hl].
Defined.

Lemma coerce_rows_text (j : nat) (rs : list (nat * list cell))
  (dates : list value) :
  existsb (Nat.eqb j) [3; 4; 5] = true ->
  Forall (fun lr => length (snd lr) = 10) rs ->
  map (fun r => nth j r VNaN) (map snd (coerce_rows rs dates)) =
    map (fun lr => of_cell (nth j (snd lr) NaN)) rs.
Proof.
  intros Hj Hr. revert dates.
  induction Hr as [|[l r] rs Hlen _ IH]; intros dates; [reflexivity|].
  cbn [map coerce_rows fst snd]. rewrite IH. f_equal.
  cbn [snd] in Hlen.
  do 10 (destruct r as [|? r]; [discriminate Hlen|]).
  destruct r; [|discriminate Hlen].
  do 10 (destruct j as [|j]; [first [reflexivity | discriminate Hj]|]).
  discriminate Hj.
Qed.

(** X11.  The coercion of lines 57-63 leaves Tran Ref, Participant and
    Additional Information as line 55 left them, row by row; the Ledger
    has as many rows as the frame of line 55. *)
Theorem text_columns_kept (td : list cell -> list (option date))
  (df_list : list RawTable) (df t : DataFrame cell) (wb : Workbook) :
  raw_table df_list = inr df ->
  clean_rows df = inr t ->
  clean_pdf td df_list = inr wb ->
  (forall name, In name text_cols ->
     column VNaN name (Cleaned wb) = map of_cell (column NaN name t))
  /\ len (Cleaned wb) = len t.
Proof.
  intros Hraw Ht Hclean.
  rewrite (clean_pdf_inr td _ _ _ Hraw Ht) in Hclean. injection Hclean as <-.
  pose proof (clean_rows_wide _ _ (raw_table_wide _ _ Hraw) Ht) as Hw.
  cbn [Cleaned]. rewrite (coerce_rows_eq td _ Hw). destruct Hw as [Hc Hr].
  split.
  - intros name Hin. unfold column, reset_index. cbn [columns rows]. rewrite Hc.
    set (dates := map date_value _).
    rewrite <- (map_map snd (fun r => nth (get_loc name column_names) r VNaN)).
    rewrite renumber_snd. rewrite (map_map _ of_cell).
    apply coerce_rows_text; [|exact Hr].
    cbn in Hin.
    repeat (destruct Hin as [<-|Hin]; [reflexivity|]). contradiction.
  - unfold len, reset_index. cbn [rows].
    now rewrite renumber_length, length_map, coerce_rows_length.
Qed.

Lemma text_columns_kept_witness :
  column VNaN "Additional Information" (Cleaned scenario_workbook)
  = [VStr "Payment note continued"].
Proof.
  exact (proj1 (text_columns_kept no_dates scenario scenario_frame scenario_rows
                  scenario_workbook eq_refl eq_refl eq_refl)
               "Additional Information" (or_intror (or_intror (or_introl eq_refl)))).
Defined.

Lemma remove_commas_spaces (s : string) :
  Text.all_chars space_or_comma s = true ->
  Text.all_chars Text.is_space (Text.remove_commas s) = true.
Proof.
  induction s as [|c s IH]; [reflexivity|].
  cbn [Text.all_chars Text.remove_commas]. rewrite andb_true_iff.
  intros [Hc Hs]. destruct (Ascii.eqb c ",") eqn:E; [now apply IH|].
  cbn [Text.all_chars]. unfold space_or_comma in Hc. rewrite E, orb_false_r in Hc.
  now rewrite Hc, IH.
Qed.

(** X12.  A cell that holds nothing but whitespace and commas, an empty
    cell among them, becomes null in a numeric column; so does a missing
    cell. *)
Theorem blank_cell_is_null (s : string) :
  Text.all_chars space_or_comma s = true ->
  coerce_cell (Str s) = VNaN /\ coerce_cell NaN = VNaN.
Proof.
  intros H. split; [|reflexivity].
  unfold coerce_cell. cbn [astype_str].
  pose proof (remove_commas_spaces s H) as Hs.
  rewrite <- blank_all_space in Hs. unfold blank in Hs.
  unfold to_numeric. now rewrite Hs.
Qed.

Lemma blank_cell_is_null_witness : coerce_cell (Str " , ") = VNaN.
Proof.
  exact (proj1 (blank_cell_is_null " , " eq_refl)).
Defined.

(** ** The rows of the two sheets *)

(** X13.  The rows of the Debit sheet before its last row are the Ledger
    rows with a non-null DR, each of them once, cut to the eight columns
    of the sheet, and each has a non-null DR; the Credit sheet holds the
    Ledger rows with a non-null CR in the same way. *)
Theorem sheet_rows_selected (td : list cell -> list (option date))
  (df_list : list RawTable) (wb : Workbook) :
  clean_pdf td df_list = inr wb ->
  (Permutation (non_trailer (Debit wb))
               (map debit_cells (with_flag "DR" (Cleaned wb)))
   /\ Forall (fun r => notna (field VNaN "DR" (Debit wb) r) = true)
             (non_trailer (Debit wb)))
  /\ (Permutation (non_trailer (Credit wb))
                  (map credit_cells (with_flag "CR" (Cleaned wb)))
      /\ Forall (fun r => notna (field VNaN "CR" (Credit wb) r) = true)
                (non_trailer (Credit wb))).
Proof.
  intros H. destruct (clean_pdf_inv td _ _ H) as [df [t [_ [_ [Hw ->]]]]].
  cbn [Cleaned Debit Credit].
  pose proof (coerce_columns td _ Hw) as Hc.
  set (L := coerce td t) in *.
  split.
  - destruct (debit_sheet_rows L Hc) as [Hcols Hrows].
    destruct (sheet_split _ _ _ Hrows) as [Hb _]. rewrite Hb.
    rewrite (with_flag_ledger L "DR" 6 Hc eq_refl). rewrite map_map.
    split.
    + apply Permutation_map, sorted_selection_perm.
    + unfold field. rewrite Hcols.
      change (get_loc "DR" debit_columns) with 6.
      apply Forall_map. cbn [debit_cells nth].
      eapply Permutation_Forall; [|apply (selected_notna 6 L)].
      symmetry. apply sorted_selection_perm.
  - destruct (credit_sheet_rows L Hc) as [Hcols Hrows].
    destruct (sheet_split _ _ _ Hrows) as [Hb _]. rewrite Hb.
    rewrite (with_flag_ledger L "CR" 8 Hc eq_refl). rewrite map_map.
    split.
    + apply Permutation_map, sorted_selection_perm.
    + unfold field. rewrite Hcols.
      change (get_loc "CR" credit_columns) with 6.
      apply Forall_map. cbn [credit_cells nth].
      eapply Permutation_Forall; [|apply (selected_notna 8 L)].
      symmetry. apply sorted_selection_perm.
Qed.

Lemma sheet_rows_selected_witness :
  Permutation (non_trailer (Debit mixed_workbook))
              (map debit_cells (with_flag "DR" (Cleaned mixed_workbook)))
  /\ length (non_trailer (Credit mixed_workbook)) = 1.
Proof.
  split.
  - exact (proj1 (proj1 (sheet_rows_selected no_dates mixed mixed_workbook
                           eq_refl))).
  - reflexivity.
Defined.

Lemma sheet_of_labels (flag amount : nat) (other : list nat) (df : DataFrame value) :
  labels (sheet_of flag amount other df)
  = seq 0 (len (sheet_of flag amount other df)).
Proof.
  unfold sheet_of, sheet_objects. cbn [last].
  unfold labels, len, drop_columns, concat2. cbn [rows].
  rewrite map_map, length_map. cbn [fst].
  now rewrite renumber_labels, renumber_length.
Qed.

(** X14.  Each sheet has eight columns, the Ledger's without the two of
    the other side; its index counts the rows from 0; every row has
    eight cells; it has one row more than the Ledger rows it selects;
    and its last row has no value in Value Date, Tran Type, Tran Ref,
    Participant and Additional Information. *)
Theorem sheet_shape (td : list cell -> list (option date))
  (df_list : list RawTable) (wb : Workbook) :
  clean_pdf td df_list = inr wb ->
  (columns (Debit wb) = debit_columns
   /\ labels (Debit wb) = seq 0 (len (Debit wb))
   /\ Forall (fun r => length r = 8) (cells_of (Debit wb))
   /\ len (Debit wb) = S (length (with_flag "DR" (Cleaned wb)))
   /\ forall name, In name unset_in_trailer ->
        field VNaN name (Debit wb) (trailer_row (Debit wb)) = VNaN)
  /\ (columns (Credit wb) = credit_columns
      /\ labels (Credit wb) = seq 0 (len (Credit wb))
      /\ Forall (fun r => length r = 8) (cells_of (Credit wb))
      /\ len (Credit wb) = S (length (with_flag "CR" (Cleaned wb)))
      /\ forall name, In name unset_in_trailer ->
           field VNaN name (Credit wb) (trailer_row (Credit wb)) = VNaN).
Proof.
  intros H. destruct (clean_pdf_inv td _ _ H) as [df [t [_ [_ [Hw ->]]]]].
  cbn [Cleaned Debit Credit].
  pose proof (coerce_columns td _ Hw) as Hc.
  set (L := coerce td t) in *.
  split.
  - destruct (debit_sheet_rows L Hc) as [Hcols Hrows].
    destruct (sheet_split _ _ _ Hrows) as [_ Ht].
    split; [exact Hcols|]. split; [apply sheet_of_labels|]. split; [|split].
    + unfold cells_of. rewrite Hrows. apply Forall_app. split.
      * apply Forall_map. apply Forall_forall. reflexivity.
      * repeat constructor.
    + unfold len. rewrite <- (length_map snd), Hrows.
      rewrite length_app, length_map. cbn [length].
      rewrite (with_flag_ledger L "DR" 6 Hc eq_refl), length_map.
      rewrite (Permutation_length (sorted_selection_perm 6 7 L)). lia.
    + intros name Hin. rewrite Ht. unfold field. rewrite Hcols.
      cbn in Hin.
      repeat (destruct Hin as [<-|Hin]; [reflexivity|]). contradiction.
  - destruct (credit_sheet_rows L Hc) as [Hcols Hrows].
    destruct (sheet_split _ _ _ Hrows) as [_ Ht].
    split; [exact Hcols|]. split; [apply sheet_of_labels|]. split; [|split].
    + unfold cells_of. rewrite Hrows. apply Forall_app. split.
      * apply Forall_map. apply Forall_forall. reflexivity.
      * repeat constructor.
    + unfold len. rewrite <- (length_map snd), Hrows.
      rewrite length_app, length_map. cbn [length].
      rewrite (with_flag_ledger L "CR" 8 Hc eq_refl), length_map.
      rewrite (Permutation_length (sorted_selection_perm 8 9 L)). lia.
    + intros name Hin. rewrite Ht. unfold field. rewrite Hcols.
      cbn in Hin.
      repeat (destruct Hin as [<-|Hin]; [reflexivity|]). contradiction.
Qed.

Lemma sheet_shape_witness :
  len (Debit mixed_workbook) = 5
  /\ field VNaN "Participant" (Debit mixed_workbook)
       (trailer_row (Debit mixed_workbook)) = VNaN.
Proof.
  destruct (sheet_shape no_dates mixed mixed_workbook eq_refl)
    as [[_ [_ [_ [Hlen Hnull]]]] _].
  split; [exact Hlen|].
  apply Hnull. simpl. tauto.
Defined.

(** ** The cleaned rows keep their place *)

Lemma seq_sorted (a n : nat) : StronglySorted lt (seq a n).
Proof.
  revert a. induction n as [|n IH]; intros a; cbn [seq]; constructor.
  - apply IH.
  - apply Forall_forall. intros x Hx. apply in_seq in Hx. lia.
Qed.

Lemma filter_labels_sorted {A} (q : nat * A -> bool) (l : list (nat * A)) :
  StronglySorted lt (map fst l) -> StronglySorted lt (map fst (filter q l)).
Proof.
  induction l as [|x l IH]; intros H; [constructor|].
  cbn [map] in H. inversion H as [|? ? Hs Hall]; subst.
  cbn [filter]. destruct (q x); [|now apply IH].
  cbn [map]. constructor; [now apply IH|].
  rewrite Forall_forall in *. intros y Hy. apply Hall.
  apply in_map_iff in Hy. destruct Hy as [z [<- Hz]].
  apply filter_In in Hz. apply in_map. tauto.
Qed.

Lemma absorbed_labels (rs : list (nat * list cell)) :
  map fst (absorbed rs) = map fst rs.
Proof.
  induction rs as [|a rs IH]; [reflexivity|].
  cbn [absorbed map]. now rewrite absorb_fst, IH.
Qed.

Lemma raw_table_index (df_list : list RawTable) (df : DataFrame cell) :
  raw_table df_list = inr df -> labels df = seq 0 (len df).
Proof.
  unfold raw_table. destruct (pd_concat df_list) as [e|t] eqn:Hc; [discriminate|].
  intros H. apply set_columns_inr in H. destruct H as [_ ->].
  assert (Hne : df_list <> []) by (destruct df_list; [discriminate|congruence]).
  rewrite pd_concat_inr in Hc by assumption. injection Hc as <-.
  unfold labels, len. cbn [rows first_columns body].
  rewrite map_map, length_map. cbn [fst].
  now rewrite renumber_labels, renumber_length.
Qed.

(** X15.  The rows of line 55 stand in the order of the extracted rows:
    their index labels increase.  Each of them is the extracted row of
    that label, with all its cells as they were, except that Additional
    Information may have been replaced by a text that is not blank. *)
Theorem rows_keep_order (df_list : list RawTable) (df t : DataFrame cell) :
  raw_table df_list = inr df ->
  clean_rows df = inr t ->
  StronglySorted lt (labels t)
  /\ forall lr, In lr (rows t) ->
       exists r0, In (fst lr, r0) (rows df) /\ extended r0 (snd lr).
Proof.
  intros Hraw Ht. apply clean_rows_inr in Ht. destruct Ht as [_ [_ [_ ->]]].
  split.
  - unfold fix_continuations. rewrite merge_loop_absorbed.
    unfold labels, drop. cbn [rows].
    apply filter_labels_sorted. rewrite absorbed_labels.
    unfold filtered, select. cbn [rows].
    repeat apply (filter_labels_sorted (fun lr => negb _)).
    fold (labels df). rewrite (raw_table_index _ _ Hraw). apply seq_sorted.
  - intros lr Hin. apply fix_continuations_rows in Hin.
    destruct Hin as [[l0 r0] [Hin0 [Hl He]]]. cbn [fst snd] in *.
    exists r0. split; [|exact He]. rewrite Hl.
    unfold filtered, select in Hin0. cbn [rows] in Hin0.
    repeat (apply filter_In in Hin0; destruct Hin0 as [Hin0 _]).
    exact Hin0.
Qed.

Lemma rows_keep_order_witness : StronglySorted lt (labels scenario_rows).
Proof.
  exact (proj1 (rows_keep_order scenario scenario_frame scenario_rows
                  eq_refl eq_refl)).
Defined.

(** X16.  Line 45 needs a frame with columns.  It then keeps a row
    exactly when its first cell, read as text, does not have
    "Additional" in it, in any letter case; the other cells of the row
    play no part. *)
Theorem header_rows_removed (df df' : DataFrame cell) (lr : nat * list cell) :
  drop_headers df = inr df' ->
  columns df' = columns df
  /\ (In lr (rows df')
      <-> In lr (rows df)
          /\ ~ occurs_in "Additional" (astype_str (nth 0 (snd lr) NaN))).
Proof.
  unfold drop_headers. destruct (columns df) eqn:Ec; [discriminate|].
  intros H. injection H as <-. cbn [columns rows select].
  split; [exact Ec|].
  rewrite filter_In, negb_true_iff. unfold is_header, occurs_in. split.
  - intros [Hin Hh]. split; [exact Hin|]. intros Hocc.
    apply contains_ci_spec in Hocc. congruence.
  - intros [Hin Hocc]. split; [exact Hin|].
    destruct (Text.contains_ci _ _) eqn:E; [|reflexivity].
    apply contains_ci_spec in E. contradiction.
Qed.

Lemma header_rows_removed_witness :
  ~ In (7, [Str "additional Information"; Str "x"])
       (rows (select (fun row => negb (is_header row))
                (mkDF ["a"; "b"] [(7, [Str "additional Information"; Str "x"])]))).
Proof.
  intros Hin.
  apply (proj2 (header_rows_removed
                  (mkDF ["a"; "b"] [(7, [Str "additional Information"; Str "x"])])
                  _ (7, [Str "additional Information"; Str "x"]) eq_refl)) in Hin.
  destruct Hin as [_ Hn]. apply Hn.
  exists "", "additional", " Information". split; reflexivity.
Defined.

(** ** The name of the workbook *)

Lemma str_length_app (a b : string) :
  String.length (a ++ b) = String.length a + String.length b.
Proof.
  induction a as [|c a IH]; simpl; [reflexivity|]. now rewrite IH.
Qed.

Lemma substring_all (s : string) : substring 0 (String.length s) s = s.
Proof.
  induction s as [|c s IH]; simpl; [reflexivity|]. now rewrite IH.
Qed.

Lemma substring_prefix (pre rest : string) :
  substring 0 (String.length pre) (pre ++ rest) = pre.
Proof.
  induction pre as [|c pre IH]; simpl.
  - now destruct rest.
  - now rewrite IH.
Qed.

Lemma substring_suffix (pre rest : string) :
  substring (String.length pre)
            (String.length (pre ++ rest) - String.length pre) (pre ++ rest)
  = rest.
Proof.
  induction pre as [|c pre IH]; cbn [String.length append substring].
  - rewrite Nat.sub_0_r. apply substring_all.
  - exact IH.
Qed.

Lemma without_app (c : ascii) (a b : string) :
  Path.without c (a ++ b) = Path.without c a && Path.without c b.
Proof. apply all_chars_append. Qed.

Lemma rfind_from_without (c : ascii) (s : string) (i f : Z) :
  Path.without c s = true -> Path.rfind_from c s i f = f.
Proof.
  revert i f. induction s as [|x s IH]; intros i f H; [reflexivity|].
  cbn [Path.without Text.all_chars] in H. apply andb_prop in H.
  destruct H as [Hx Hs]. apply negb_true_iff in Hx.
  cbn [Path.rfind_from]. rewrite Hx. now apply IH.
Qed.

Lemma rfind_from_last (c : ascii) (a b : string) (i f : Z) :
  Path.without c b = true ->
  Path.rfind_from c (a ++ String c b) i f = (i + Z.of_nat (String.length a))%Z.
Proof.
  intros Hb. revert i f. induction a as [|x a IH]; intros i f.
  - cbn [append Path.rfind_from String.length]. rewrite Ascii.eqb_refl.
    rewrite (rfind_from_without c b _ _ Hb). lia.
  - cbn [append Path.rfind_from String.length]. rewrite IH. lia.
Qed.

Lemma rfind_from_cases (c : ascii) (s : string) (i f : Z) :
  (Path.without c s = true /\ Path.rfind_from c s i f = f)
  \/ (exists a b, s = (a ++ String c b)%string /\ Path.without c b = true
        /\ Path.rfind_from c s i f = (i + Z.of_nat (String.length a))%Z).
Proof.
  revert i f. induction s as [|x s IH]; intros i f.
  - left. split; reflexivity.
  - cbn [Path.rfind_from].
    destruct (IH (i + 1)%Z (if Ascii.eqb x c then i else f))
      as [[Hw E]|[a [b [-> [Hb E]]]]].
    + destruct (Ascii.eqb x c) eqn:Ex.
      * right. apply Ascii.eqb_eq in Ex. subst x. exists "", s.
        split; [reflexivity|]. split; [exact Hw|]. rewrite E. cbn. lia.
      * left. split; [|exact E].
        cbn [Path.without Text.all_chars]. rewrite Ex. exact Hw.
    + right. exists (String x a), b. split; [reflexivity|].
      split; [exact Hb|]. rewrite E. cbn [String.length]. lia.
Qed.

Lemma rfind_from_lower (c : ascii) (a b : string) (i f : Z) :
  (i + Z.of_nat (String.length a) <= Path.rfind_from c (a ++ String c b) i f)%Z.
Proof.
  revert i f. induction a as [|x a IH]; intros i f.
  - cbn [append Path.rfind_from String.length]. rewrite Ascii.eqb_refl.
    destruct (rfind_from_cases c b (i + 1)%Z i) as [[_ ->]|[a' [b' [_ [_ ->]]]]];
      lia.
  - cbn [append Path.rfind_from String.length].
    specialize (IH (i + 1)%Z (if Ascii.eqb x c then i else f)). lia.
Qed.

Lemma without_false (c : ascii) (s : string) :
  Path.without c s = false -> exists a b, s = (a ++ String c b)%string.
Proof.
  induction s as [|x s IH]; [discriminate|].
  cbn [Path.without Text.all_chars]. destruct (Ascii.eqb x c) eqn:Ex.
  - intros _. apply Ascii.eqb_eq in Ex. subst x. now exists "", s.
  - cbn [negb andb]. intros H. destruct (IH H) as [a [b ->]].
    now exists (String x a), b.
Qed.

Lemma append_empty (p : string) : (p ++ "")%string = p.
Proof.
  induction p as [|c p IH]; simpl; [reflexivity|]. now rewrite IH.
Qed.

Lemma append_cons_assoc (a : string) (c : ascii) (q r : string) :
  ((a ++ String c q) ++ r)%string = (a ++ String c (q ++ r))%string.
Proof.
  induction a as [|x a IH]; simpl; [reflexivity|]. now rewrite IH.
Qed.

(** Either [splitext] leaves the name whole, or it cuts it at its last
    dot, and no dot or slash comes after that dot. *)
Lemma splitext_cut (p : string) :
  Path.splitext p = (p, "")
  \/ exists a e,
       p = (a ++ String "." e)%string
       /\ Path.without "." e = true /\ Path.without "/" e = true
       /\ Path.splitext p = (a, String "." e).
Proof.
  unfold Path.splitext.
  destruct ((Path.rfind "/" p <? Path.rfind "." p)%Z
            && Path.not_all_dots p (Z.to_nat (Path.rfind "/" p + 1))
                 (Z.to_nat (Path.rfind "." p - (Path.rfind "/" p + 1)))) eqn:C;
    [|now left].
  right. apply andb_prop in C. destruct C as [Hlt _]. apply Z.ltb_lt in Hlt.
  unfold Path.rfind in *.
  assert (Hsep : (-1 <= Path.rfind_from "/" p 0 (-1))%Z).
  { destruct (rfind_from_cases "/" p 0 (-1)) as [[_ ->]|[a [b [_ [_ ->]]]]]; lia. }
  destruct (rfind_from_cases "." p 0 (-1)) as [[_ E]|[a [b [-> [Hb E]]]]];
    [lia|].
  rewrite E in *. exists a, b.
  replace (Z.to_nat (0 + Z.of_nat (String.length a))) with (String.length a)
    by lia.
  rewrite substring_prefix, substring_suffix.
  split; [reflexivity|]. split; [exact Hb|]. split; [|reflexivity].
  destruct (Path.without "/" b) eqn:Hs; [reflexivity|]. exfalso.
  destruct (without_false "/" b Hs) as [q [q' ->]].
  pose proof (rfind_from_lower "/" (a ++ String "." q) q' 0 (-1)) as Hlow.
  rewrite append_cons_assoc in Hlow.
  rewrite str_length_app in Hlow. cbn [String.length] in Hlow. lia.
Qed.

(** X17.  [os.path.splitext] cuts the name in two parts that give the
    name back when put together.  The second part is empty, or it is a
    dot followed by characters that are neither a dot nor a slash. *)
Theorem splitext_parts (p : string) :
  (fst (Path.splitext p) ++ snd (Path.splitext p))%string = p
  /\ (snd (Path.splitext p) = ""
      \/ exists e, snd (Path.splitext p) = String "." e
           /\ Path.without "." e = true /\ Path.without "/" e = true).
Proof.
  destruct (splitext_cut p) as [E|[a [e [Hp [Hd [Hs E]]]]]]; rewrite E;
    cbn [fst snd].
  - split; [apply append_empty | now left].
  - split; [now symmetry|]. right. now exists e.
Qed.

Lemma get_middle (pre : string) (x : ascii) (rest : string) :
  String.get (String.length pre) (pre ++ String x rest) = Some x.
Proof.
  induction pre as [|c pre IH]; simpl; auto.
Qed.

Lemma not_all_dots_found (pre base rest : string) :
  Text.all_chars (fun x => Ascii.eqb x ".") base = false ->
  Path.not_all_dots (pre ++ base ++ rest) (String.length pre) (String.length base)
  = true.
Proof.
  revert pre. induction base as [|x base IH]; intros pre H; [discriminate|].
  cbn [String.length Path.not_all_dots append]. rewrite get_middle.
  cbn [Text.all_chars] in H. destruct (Ascii.eqb x ".") eqn:Ex; [|reflexivity].
  cbn [andb] in H. specialize (IH (pre ++ String x "")%string H).
  rewrite str_length_app in IH. cbn [String.length] in IH.
  replace (String.length pre + 1) with (S (String.length pre)) in IH by lia.
  now rewrite append_cons_assoc in IH.
Qed.

(** X18.  For a file name without a slash that is not made of dots
    only, followed by a dot and an extension without a dot or a slash,
    [splitext] gives the name and the extension; with a temporary
    directory that is not empty and does not end in a slash, the workbook
    is that directory, a slash, the name without its extension and
    "_clean.xlsx". *)
Theorem workbook_name (tmp base ext : string) :
  Path.without "/" base = true ->
  Text.all_chars (fun x => Ascii.eqb x ".") base = false ->
  Path.without "." ext = true ->
  Path.without "/" ext = true ->
  Text.is_empty tmp = false ->
  Path.ends_with_sep tmp = false ->
  Path.splitext (base ++ String "." ext) = (base, String "." ext)
  /\ Path.output_path tmp (base ++ String "." ext)
     = (tmp ++ "/" ++ base ++ "_clean.xlsx")%string.
Proof.
  intros Hbs Hbd He Hes Htmp Hend.
  assert (Hsplit : Path.splitext (base ++ String "." ext) = (base, String "." ext)).
  { unfold Path.splitext, Path.rfind.
    rewrite (rfind_from_last "." base ext 0 (-1) He).
    rewrite (rfind_from_without "/").
    2:{ rewrite without_app, Hbs. cbn [Path.without Text.all_chars andb].
        exact Hes. }
    replace (Z.to_nat (-1 + 1)) with 0 by lia.
    replace (Z.to_nat (0 + Z.of_nat (String.length base) - (-1 + 1)))
      with (String.length base) by lia.
    replace (Z.to_nat (0 + Z.of_nat (String.length base)))
      with (String.length base) by lia.
    pose proof (not_all_dots_found "" base (String "." ext) Hbd) as Hn.
    cbn [append String.length] in Hn. rewrite Hn.
    replace (-1 <? 0 + Z.of_nat (String.length base))%Z with true
      by (symmetry; apply Z.ltb_lt; lia).
    cbn [andb]. now rewrite substring_prefix, substring_suffix. }
  split; [exact Hsplit|].
  unfold Path.output_path, Path.pdf_name, Path.join. rewrite Hsplit. cbn [fst].
  assert (Hstart : Path.starts_with_sep (base ++ "_clean.xlsx") = false).
  { destruct base as [|c base]; [discriminate Hbd|].
    cbn [append Path.starts_with_sep].
    cbn [Path.without Text.all_chars] in Hbs. apply andb_prop in Hbs.
    destruct Hbs as [Hc _]. now apply negb_true_iff in Hc. }
  now rewrite Hstart, Htmp, Hend.
Qed.

Lemma workbook_name_witness :
  Path.output_path "/tmp" "statement.pdf" = "/tmp/statement_clean.xlsx".
Proof.
  exact (proj2 (workbook_name "/tmp" "statement" "pdf"
                  eq_refl eq_refl eq_refl eq_refl eq_refl eq_refl)).
Defined.

Lemma pdf_name_start (name : string) :
  Path.starts_with_sep (Path.pdf_name name ++ "_clean.xlsx")
  = Path.starts_with_sep name.
Proof.
  unfold Path.pdf_name.
  destruct (splitext_cut name) as [E|[a [e [Hp [_ [_ E]]]]]]; rewrite E;
    cbn [fst].
  - now destruct name.
  - rewrite Hp. now destruct a.
Qed.

(** X19.  The workbook is written under the temporary directory only
    when the name of the uploaded file does not begin with a slash:
    [os.path.join] then puts the directory in front, with a slash unless
    the directory is empty or ends in one.  When the name begins with a
    slash, the directory is dropped and the path is the name without its
    extension followed by "_clean.xlsx". *)
Theorem workbook_place (tmp name : string) :
  (Path.starts_with_sep name = true ->
   Path.output_path tmp name = (Path.pdf_name name ++ "_clean.xlsx")%string)
  /\ (Path.starts_with_sep name = false ->
      Path.output_path tmp name
      = if Text.is_empty tmp || Path.ends_with_sep tmp
        then (tmp ++ Path.pdf_name name ++ "_clean.xlsx")%string
        else (tmp ++ "/" ++ Path.pdf_name name ++ "_clean.xlsx")%string).
Proof.
  unfold Path.output_path, Path.join. rewrite pdf_name_start.
  split; intros ->; reflexivity.
Qed.

Lemma workbook_place_witness :
  Path.output_path "/tmp" "/srv/statement.pdf" = "/srv/statement_clean.xlsx".
Proof.
  exact (proj1 (workbook_place "/tmp" "/srv/statement.pdf") eq_refl).
Defined.

(** ** Commas in a numeric cell *)

Lemma remove_commas_app (a b : string) :
  Text.remove_commas (a ++ b)
  = (Text.remove_commas a ++ Text.remove_commas b)%string.
Proof.
  induction a as [|c a IH]; [reflexivity|].
  cbn [append Text.remove_commas]. rewrite IH.
  now destruct (Ascii.eqb c ",").
Qed.

(** X20.  Line 60 drops every comma of the cell, wherever it stands, not
    only one that separates thousands: a cell reads as the same cell
    without the comma, so "12,50" reads as 1250. *)
Theorem comma_ignored (a b : string) :
  coerce_cell (Str (a ++ "," ++ b)) = coerce_cell (Str (a ++ b))
  /\ coerce_cell (Str "12,50") = VNum (Number.Fin (1250 # 1)).
Proof.
  split; [|reflexivity].
  unfold coerce_cell. cbn [astype_str].
  now rewrite !remove_commas_app.
Qed.
